(** * tganalyzer.gui: the task wrapper, the progress dialog and report creation

    A shallow embedding of [src/tganalyzer/gui/__init__.py]:
    - [Py]: the fragment of Python the module relies on (exception classes,
      [issubclass], the [try]/[except]/[else]/[finally] statement);
    - [Worker]: [WorkerSignals] and [Worker.run];
    - [ProgressBarDialog]: the dialog and [update_progressbar];
    - [Path]: the operations of [pathlib] that [create_report] uses;
    - [MainWindow]: [create_report], [create_html_report] and the delivery of
      signals to the slots connected to them;
    - [Examples]: sample tasks, collaborators and windows.
    The properties follow the definitions. *)

From stdpp Require Import base gmap list strings.
From Stdlib Require Import ZArith.

Local Open Scope string_scope.
Local Open Scope Z_scope.
Local Open Scope list_scope.
Local Open Scope stdpp_scope.

(** ** Python *)
Module Py.

(** Exception classes with single inheritance, rooted at [BaseException]. *)
Inductive PyClass : Type :=
| BaseException
| Subclass (name : string) (base : PyClass).

#[global] Instance PyClass_eq_dec : EqDecision PyClass.
Proof. solve_decision. Defined.

Definition Exception : PyClass := Subclass "Exception" BaseException.
Definition SystemExit : PyClass := Subclass "SystemExit" BaseException.
Definition KeyboardInterrupt : PyClass := Subclass "KeyboardInterrupt" BaseException.
Definition LookupError : PyClass := Subclass "LookupError" Exception.
Definition KeyError : PyClass := Subclass "KeyError" LookupError.
Definition ValueError : PyClass := Subclass "ValueError" Exception.

Definition class_name (c : PyClass) : string :=
  match c with
  | BaseException => "BaseException"
  | Subclass name _ => name
  end.

(** [issubclass(c, d)]: [d] is [c] or one of its ancestors. *)
Fixpoint issubclass (c d : PyClass) : bool :=
  if decide (c = d) then true
  else match c with
       | BaseException => false
       | Subclass _ base => issubclass base d
       end.

(** An exception instance: its class, [str(value)] and the frames of its
    traceback. *)
Record PyExc : Type := {
  exc_type : PyClass;
  exc_str : string;
  exc_frames : list string;
}.

#[global] Instance PyExc_eq_dec : EqDecision PyExc.
Proof. solve_decision. Defined.

Definition newline : string := String (Ascii.ascii_of_nat 10) EmptyString.

(** The last line of a traceback: the class, and the message when there is
    one. *)
Definition format_exception_only (e : PyExc) : string :=
  match exc_str e with
  | EmptyString => class_name (exc_type e)
  | String _ _ => class_name (exc_type e) +:+ ": " +:+ exc_str e
  end.

(** [traceback.format_exc()] for the exception being handled: the header,
    one line per frame, then the class and the message. *)
Definition format_exc (e : PyExc) : string :=
  "Traceback (most recent call last):" +:+ newline
    +:+ String.concat "" ((fun frame => frame +:+ newline) <$> exc_frames e)
    +:+ format_exception_only e +:+ newline.

Definition single_quote : Ascii.ascii := Ascii.ascii_of_nat 39.
Definition double_quote : Ascii.ascii := Ascii.ascii_of_nat 34.
Definition backslash : Ascii.ascii := Ascii.ascii_of_nat 92.

Fixpoint contains (c : Ascii.ascii) (s : string) : bool :=
  match s with
  | EmptyString => false
  | String c' rest => Ascii.eqb c' c || contains c rest
  end.

(** The characters of [s] between the quotes of [repr(s)]: the backslash,
    the quote, tab, newline and carriage return are escaped. *)
Fixpoint escape (quote : Ascii.ascii) (s : string) : string :=
  match s with
  | EmptyString => EmptyString
  | String c rest =>
      (if Ascii.eqb c backslash then String backslash (String backslash EmptyString)
       else if Ascii.eqb c quote then String backslash (String quote EmptyString)
       else if Ascii.eqb c (Ascii.ascii_of_nat 9) then String backslash "t"
       else if Ascii.eqb c (Ascii.ascii_of_nat 10) then String backslash "n"
       else if Ascii.eqb c (Ascii.ascii_of_nat 13) then String backslash "r"
       else String c EmptyString)
      +:+ escape quote rest
  end.

(** [repr(s)] for a string of printable characters: between single quotes,
    or between double quotes when [s] has a single quote and no double
    quote. *)
Definition repr (s : string) : string :=
  let quote :=
    if contains single_quote s && negb (contains double_quote s)
    then double_quote else single_quote in
  String quote (escape quote s +:+ String quote EmptyString).

(** The values a task's function returns. *)
Inductive PyObject : Type :=
| PyNone
| PyInt (n : Z)
| PyStr (s : string).

(** How a statement or a call ends. *)
Inductive Outcome (A : Type) : Type :=
| Returned (a : A)
| Raised (e : PyExc).
Arguments Returned {A} a.
Arguments Raised {A} e.

(** Computations over a state [S] that may raise. *)
Definition M (S A : Type) : Type := S -> Outcome A * S.

Definition ret {S A} (a : A) : M S A := fun s => (Returned a, s).
Definition raise {S A} (e : PyExc) : M S A := fun s => (Raised e, s).
Definition bind {S A B} (m : M S A) (f : A -> M S B) : M S B :=
  fun s => match m s with
           | (Returned a, s') => f a s'
           | (Raised e, s') => (Raised e, s')
           end.

(** [try: body / except cls: handler / else: orelse / finally: finalbody].
    The handler runs for a fault of [body] whose class derives from [cls];
    [orelse] runs when [body] returns, and its faults are not handled;
    [finalbody] always runs, and a pending fault propagates after it unless
    [finalbody] raises one of its own. *)
Definition try_except_else_finally {S A}
    (body : M S A) (cls : PyClass) (handler : PyExc -> M S unit)
    (orelse : A -> M S unit) (finalbody : M S unit) : M S unit :=
  fun s =>
    let '(r, s1) := body s in
    let '(pending, s2) :=
      match r with
      | Returned a => orelse a s1
      | Raised e =>
          if issubclass (exc_type e) cls then handler e s1 else (Raised e, s1)
      end in
    match finalbody s2 with
    | (Raised e', s3) => (Raised e', s3)
    | (Returned _, s3) => (pending, s3)
    end.

End Py.

Declare Scope py_scope.
Delimit Scope py_scope with py.
Notation "x <- m ;; k" := (Py.bind m (fun x => k))
  (at level 100, m at next level, right associativity) : py_scope.
Notation "m ;; k" := (Py.bind m (fun _ => k))
  (at level 100, right associativity) : py_scope.

(** ** WorkerSignals and Worker *)
Module Worker.
Import Py.

(** The four signals of [WorkerSignals]. *)
Inductive Signal : Type := finished | error | result | progress.

#[global] Instance Signal_eq_dec : EqDecision Signal.
Proof. solve_decision. Defined.

(** What one call of [emit] sends: [progress] carries an int, [result] the
    object returned, [error] the tuple [(exctype, value, format_exc())],
    [finished] nothing. *)
Inductive Event : Type :=
| Progress (percent : Z)
| Result (value : PyObject)
| Error (payload : PyClass * PyExc * string)
| Finished.

(** What a [Signal(int)] delivers of the Python int it is given: a 32-bit
    signed int, the low 32 bits of the value. *)
Definition Signal_int (n : Z) : Z :=
  (n + 2147483648) mod 4294967296 - 2147483648.

Definition signal_of (ev : Event) : Signal :=
  match ev with
  | Progress _ => progress
  | Result _ => result
  | Error _ => error
  | Finished => finished
  end.

(** One call of [emit], and the fault the call itself raised, if any. *)
Record Emission : Type := {
  event : Event;
  emit_fault : option PyExc;
}.

(** The identity of a [WorkerSignals] object. *)
Definition SignalsId : Type := nat.

(** What the worker thread can affect: the calls of [emit] made on each
    [WorkerSignals] object, in order, and the two output streams. *)
Record World : Type := {
  channels : gmap nat (list Emission);
  stderr : list string;
  stdout : list string;
}.

Definition channel (sig : SignalsId) (w : World) : list Emission :=
  channels w !!! sig.

Definition events (sig : SignalsId) (w : World) : list Event :=
  event <$> channel sig w.

Definition record (sig : SignalsId) (em : Emission) (w : World) : World :=
  {| channels := <[sig := channel sig w ++ [em]]> (channels w);
     stderr := stderr w;
     stdout := stdout w |}.

Definition print (line : string) (w : World) : World :=
  {| channels := channels w; stderr := stderr w; stdout := stdout w ++ [line] |}.

(** [traceback.print_exc()] writes the formatted traceback to stderr. *)
Definition print_exc (e : PyExc) : M World unit :=
  fun w => (Returned tt,
            {| channels := channels w;
               stderr := stderr w ++ [format_exc e];
               stdout := stdout w |}).

(** What a call of a task's function does, as the wrapper can observe it:
    it prints, it invokes the handle it received as [progress], and it
    returns or raises. The index tells whether the call received the handle:
    only then is there something to invoke. *)
Inductive Body (A : Type) : bool -> Type :=
| Return : forall g, A -> Body A g
| Raise : forall g, PyExc -> Body A g
| Print : forall g, string -> Body A g -> Body A g
| EmitProgress : Z -> Body A true -> Body A true.
Arguments Return {A g} _.
Arguments Raise {A g} _.
Arguments Print {A g} _ _.
Arguments EmitProgress {A} _ _.

(** A function a [Worker] can wrap: called on positional arguments, with or
    without the keyword argument [progress]. *)
Definition Callable : Type := list PyObject -> forall g : bool, Body PyObject g.

(** How the call ends. *)
Fixpoint outcome_of {A g} (b : Body A g) : Outcome A :=
  match b with
  | Return a => Returned a
  | Raise e => Raised e
  | Print _ k => outcome_of k
  | EmitProgress _ k => outcome_of k
  end.

(** The percent values the call passes to the handle, in order. *)
Fixpoint progress_calls {A g} (b : Body A g) : list Z :=
  match b with
  | Return _ | Raise _ => []
  | Print _ k => progress_calls k
  | EmitProgress p k => p :: progress_calls k
  end.

(** The lines the call prints. *)
Fixpoint printed {A g} (b : Body A g) : list string :=
  match b with
  | Return _ | Raise _ => []
  | Print line k => line :: printed k
  | EmitProgress _ k => printed k
  end.

(** A call of the handle by the task's function. *)
Definition progress_emission (percent : Z) : Emission :=
  {| event := Progress percent; emit_fault := None |}.

(** Running the call in the worker thread; [sig] is the [WorkerSignals]
    object whose [progress] signal was passed as the handle. *)
Fixpoint exec {A g} (sig : SignalsId) (b : Body A g) : M World A :=
  match b with
  | Return a => ret a
  | Raise e => raise e
  | Print line k => fun w => exec sig k (print line w)
  | EmitProgress p k => fun w => exec sig k (record sig (progress_emission p) w)
  end.

(** Sequencing inside a function body. *)
Fixpoint and_then {A B g} (b : Body A g) : (A -> Body B g) -> Body B g :=
  match b in Body _ g0 return (A -> Body B g0) -> Body B g0 with
  | Return a => fun f => f a
  | Raise e => fun _ => Raise e
  | Print line k => fun f => Print line (and_then k f)
  | EmitProgress p k => fun f => EmitProgress p (and_then k f)
  end.

(** [try: b / except cls as e: handler e] inside a function body. *)
Fixpoint try_except {A g} (b : Body A g) (cls : PyClass)
    : (PyExc -> Body A g) -> Body A g :=
  match b in Body _ g0 return (PyExc -> Body A g0) -> Body A g0 with
  | Return a => fun _ => Return a
  | Raise e => fun handler =>
      if issubclass (exc_type e) cls then handler e else Raise e
  | Print line k => fun handler => Print line (try_except k cls handler)
  | EmitProgress p k => fun handler => EmitProgress p (try_except k cls handler)
  end.

(** A callee that was not given the handle, inside a caller that may have
    it: [lift_body] is the identity on bodies of index [false]. *)
Fixpoint lift_body {A g g0} (b : Body A g0) : if g0 then unit else Body A g :=
  match b in Body _ g1 return (if g1 then unit else Body A g) with
  | @Return _ g1 a =>
      if g1 as g2 return (if g2 then unit else Body A g) then tt else Return a
  | @Raise _ g1 e =>
      if g1 as g2 return (if g2 then unit else Body A g) then tt else Raise e
  | @Print _ g1 line k =>
      (if g1 as g2
          return ((if g2 then unit else Body A g) -> (if g2 then unit else Body A g))
       then fun _ => tt else fun r => Print line r) (lift_body k)
  | EmitProgress _ _ => tt
  end.

Definition without_handle {A g} (b : Body A false) : Body A g := lift_body b.

Record Worker : Type := {
  func : Callable;
  args : list PyObject;
  progress_flag : bool;
  signals : SignalsId;
}.

(** [Worker(func, *args, progress_flag=...)]; [new_signals] is the fresh
    [WorkerSignals()] object. *)
Definition __init__ (new_signals : SignalsId) (func : Callable)
    (args : list PyObject) (progress_flag : bool) : Worker :=
  {| func := func; args := args; progress_flag := progress_flag;
     signals := new_signals |}.

(** The body of the call [run] makes: with the handle when [progress_flag]
    is set, without it otherwise. *)
Definition body (self : Worker) : Body PyObject (progress_flag self) :=
  func self (args self) (progress_flag self).

(** The kinds of events: a result or an error event ends the outcome of a
    task. *)
Definition is_terminal (ev : Event) : bool :=
  match ev with
  | Result _ | Error _ => true
  | Progress _ | Finished => false
  end.

Definition is_progress (ev : Event) : bool :=
  match ev with Progress _ => true | _ => false end.

Definition is_error (ev : Event) : bool :=
  match ev with Error _ => true | _ => false end.

(** The result or error event that [run] emits for a call that ends as
    [o]: none for a fault that [except Exception] does not handle. *)
Definition terminal_events (o : Outcome PyObject) : list Event :=
  match o with
  | Returned v => [Result v]
  | Raised e =>
      if issubclass (exc_type e) Exception
      then [Error (exc_type e, e, format_exc e)] else []
  end.

(** Events in the order of an outcome channel: progress events, then one
    result or error event, then the finished event, and nothing more. *)
Fixpoint well_ordered (evs : list Event) : bool :=
  match evs with
  | Progress _ :: rest => well_ordered rest
  | [terminal; Finished] => is_terminal terminal
  | _ => false
  end.

(** [w'] is [w] after the calls [ems] of [emit] on [sig], the lines [err]
    written to stderr and the lines [out] written to stdout. *)
Definition extends (sig : SignalsId) (ems : list Emission)
    (err out : list string) (w w' : World) : Prop :=
  channel sig w' = channel sig w ++ ems
  /\ (forall j : nat, j <> sig -> channels w' !! j = channels w !! j)
  /\ stderr w' = stderr w ++ err
  /\ stdout w' = stdout w ++ out.

(** The calls of [emit] on [sig] made between [w] and [w']. *)
Definition emitted (sig : SignalsId) (w w' : World) : list Emission :=
  drop (length (channel sig w)) (channel sig w').

(** The ways the call can end that the [try] statement of [run] turns into
    a result or an error event: a return, or a fault that the clause
    [except Exception] handles. *)
Definition handled {A} (o : Outcome A) : bool :=
  match o with
  | Returned _ => true
  | Raised e => issubclass (exc_type e) Exception
  end.

Section Run.

(** Whether a call of [emit] made by the wrapper raises, and what. *)
Variable emit_raises : Event -> option PyExc.

Definition emission (ev : Event) : Emission :=
  {| event := ev; emit_fault := emit_raises ev |}.

Definition emit (sig : SignalsId) (ev : Event) : M World unit :=
  fun w =>
    let w' := record sig (emission ev) w in
    match emit_raises ev with
    | Some e => (Raised e, w')
    | None => (Returned tt, w')
    end.

(** How a call of [emit] ends. *)
Definition after_emit (ev : Event) : Outcome unit :=
  match emit_raises ev with
  | Some e => Raised e
  | None => Returned tt
  end.

(** How a [try] statement whose [finally] block emits the finished signal
    ends, given how it would end without that block. *)
Definition after_finally (pending : Outcome unit) : Outcome unit :=
  match emit_raises Finished with
  | Some e => Raised e
  | None => pending
  end.

(** The call made in the [try] block. *)
Definition call (self : Worker) : M World PyObject :=
  if progress_flag self
  then exec (signals self) (func self (args self) true)
  else exec (signals self) (func self (args self) false).

Definition run (self : Worker) : M World unit :=
  try_except_else_finally
    (call self)
    Exception
    (fun exc =>
       (print_exc exc ;;
        let exctype := exc_type exc in
        let value := exc in
        emit (signals self) (Error (exctype, value, format_exc exc)))%py)
    (fun result => emit (signals self) (Result result))
    (emit (signals self) Finished).

End Run.

End Worker.

(** ** ProgressBarDialog *)
Module ProgressBarDialog.

(** [QProgressBar], the PySide6 widget: its range and its value. *)
Record QProgressBar : Type := { minimum : Z; maximum : Z; value : Z }.

(** [QProgressBar(self)]: the range is 0..100 and no value is set, which the
    bar reports as -1. *)
Definition QProgressBar_new : QProgressBar :=
  {| minimum := 0; maximum := 100; value := -1 |}.

(** [setValue(percent)]: a value outside the range is ignored (unless the
    range is 0..0). *)
Definition setValue (percent : Z) (bar : QProgressBar) : QProgressBar :=
  if (value bar =? percent)
     || (((maximum bar <? percent) || (percent <? minimum bar))
         && negb ((maximum bar =? 0) && (minimum bar =? 0)))
  then bar
  else {| minimum := minimum bar; maximum := maximum bar; value := percent |}.

Record ProgressBarDialog : Type := {
  parent : nat;
  windowTitle : string;
  message_label : string;
  progress_bar : QProgressBar;
  layout : list string;
  modal : bool;
  closed : bool;
}.

Definition __init__ (message : string) (parent : nat) : ProgressBarDialog :=
  {| parent := parent;
     windowTitle := "tg-analyzer";
     message_label := message;
     progress_bar := QProgressBar_new;
     layout := ["message_label"; "progress_bar"];
     modal := false;
     closed := false |}.

(** [dialog.exec()]: the dialog is shown and runs its modal loop. *)
Definition exec (self : ProgressBarDialog) : ProgressBarDialog :=
  {| parent := parent self; windowTitle := windowTitle self;
     message_label := message_label self; progress_bar := progress_bar self;
     layout := layout self; modal := true; closed := closed self |}.

(** [self.close()]: the dialog is dismissed and its modal loop ends. *)
Definition close (self : ProgressBarDialog) : ProgressBarDialog :=
  {| parent := parent self; windowTitle := windowTitle self;
     message_label := message_label self; progress_bar := progress_bar self;
     layout := layout self; modal := false; closed := true |}.

Definition update_progressbar (percent : Z) (self : ProgressBarDialog)
    : ProgressBarDialog :=
  let self :=
    {| parent := parent self; windowTitle := windowTitle self;
       message_label := message_label self;
       progress_bar := setValue percent (progress_bar self);
       layout := layout self; modal := modal self; closed := closed self |} in
  if percent =? 100 then close self else self.

End ProgressBarDialog.

(** ** pathlib *)
Module Path.

(** A pure path: its anchor (empty for a relative path) and its parts. *)
Record Path : Type := { anchor : string; parts : list string }.

Definition parent (p : Path) : Path :=
  {| anchor := anchor p; parts := removelast (parts p) |}.

(** [p / name] *)
Definition joinpath (p : Path) (name : string) : Path :=
  {| anchor := anchor p; parts := parts p ++ [name] |}.

Definition str (p : Path) : string :=
  match anchor p, parts p with
  | EmptyString, [] => "."
  | a, ps => a +:+ String.concat "/" ps
  end.

End Path.

(** ** MainWindow *)
Module MainWindow.
Import Py Worker.

Record Chat : Type := {
  id : Z;
  name : option string;
  type : string;
  messages : list string;
}.

(** A chat checkbox with its [chat_id] attribute. *)
Record ChatCheckBox : Type := { chat_id : Z; chat_isChecked : bool }.

(** A feature checkbox with its [feature_name] attribute. *)
Record FeatureCheckBox : Type := { feature_name : string; feature_isChecked : bool }.

Record Date : Type := { year : Z; month : Z; day : Z }.

(** A [datetime]: date, time of day as (hour, minute, second, microsecond),
    and time zone. *)
Record DateTime : Type := {
  date : Date;
  time : Z * Z * Z * Z;
  tzinfo : option string;
}.

Definition time_min : Z * Z * Z * Z := (0, 0, 0, 0).
Definition time_max : Z * Z * Z * Z := (23, 59, 59, 999999).

Definition combine (d : Date) (t : Z * Z * Z * Z) : DateTime :=
  {| date := d; time := t; tzinfo := None |}.

Definition replace_tzinfo (dt : DateTime) (tz : string) : DateTime :=
  {| date := date dt; time := time dt; tzinfo := Some tz |}.

Record Metadata : Type := {
  login : string;
  metadata_chats : list Chat;
  metadata_time_gap : DateTime * DateTime;
}.

(** The slots this module connects to a worker's signals. *)
Inductive Slot : Type :=
| update_progressbar (dialog : nat)
| open_report.

Record Connection : Type := {
  sender : SignalsId;
  signal : Signal;
  slot : Slot;
}.

(** The attributes of the window that report creation reads or writes, the
    Qt objects it creates, and the calls of [webbrowser.open]. *)
Record MainWindow : Type := {
  winId : nat;
  lang : string;
  data_path : option Path.Path;
  chats : list Chat;
  chat_checkboxes : list ChatCheckBox;
  feature_checkboxes : list FeatureCheckBox;
  from_date : Date;
  to_date : Date;
  theme_combobox : string;
  report_info : option (gmap string string);
  threadpool : list Worker;
  dialogs : gmap nat ProgressBarDialog.ProgressBarDialog;
  connections : list Connection;
  next_object : nat;
  webbrowser : list string;
}.

Definition set_report_info (info : gmap string string) (self : MainWindow)
    : MainWindow :=
  {| winId := winId self; lang := lang self; data_path := data_path self;
     chats := chats self; chat_checkboxes := chat_checkboxes self;
     feature_checkboxes := feature_checkboxes self;
     from_date := from_date self; to_date := to_date self;
     theme_combobox := theme_combobox self;
     report_info := Some info;
     threadpool := threadpool self; dialogs := dialogs self;
     connections := connections self; next_object := next_object self;
     webbrowser := webbrowser self |}.

Definition set_dialogs (ds : gmap nat ProgressBarDialog.ProgressBarDialog)
    (self : MainWindow) : MainWindow :=
  {| winId := winId self; lang := lang self; data_path := data_path self;
     chats := chats self; chat_checkboxes := chat_checkboxes self;
     feature_checkboxes := feature_checkboxes self;
     from_date := from_date self; to_date := to_date self;
     theme_combobox := theme_combobox self;
     report_info := report_info self;
     threadpool := threadpool self; dialogs := ds;
     connections := connections self; next_object := next_object self;
     webbrowser := webbrowser self |}.

(** [webbrowser.open(url)] *)
Definition webbrowser_open (url : string) (self : MainWindow) : MainWindow :=
  {| winId := winId self; lang := lang self; data_path := data_path self;
     chats := chats self; chat_checkboxes := chat_checkboxes self;
     feature_checkboxes := feature_checkboxes self;
     from_date := from_date self; to_date := to_date self;
     theme_combobox := theme_combobox self;
     report_info := report_info self;
     threadpool := threadpool self; dialogs := dialogs self;
     connections := connections self; next_object := next_object self;
     webbrowser := webbrowser self ++ [url] |}.

(** A dialog and a worker are created, the worker's signals are connected
    and the worker is handed to the pool. *)
Definition start_task (dialog : ProgressBarDialog.ProgressBarDialog)
    (worker : Worker) (conns : list Connection) (self : MainWindow)
    : MainWindow :=
  {| winId := winId self; lang := lang self; data_path := data_path self;
     chats := chats self; chat_checkboxes := chat_checkboxes self;
     feature_checkboxes := feature_checkboxes self;
     from_date := from_date self; to_date := to_date self;
     theme_combobox := theme_combobox self;
     report_info := report_info self;
     threadpool := threadpool self ++ [worker];
     dialogs := <[next_object self := ProgressBarDialog.exec dialog]> (dialogs self);
     connections := connections self ++ conns;
     next_object := S (S (next_object self));
     webbrowser := webbrowser self |}.

(** [self.report_info["path"]]; a missing attribute or key is a fault. *)
Definition report_path (self : MainWindow) : Outcome string :=
  match report_info self with
  | None =>
      Raised {| exc_type := Subclass "AttributeError" Exception;
                exc_str := "'MainWindow' object has no attribute 'report_info'";
                exc_frames := [] |}
  | Some info =>
      match info !! "path" with
      | Some p => Returned p
      | None => Raised {| exc_type := KeyError; exc_str := "'path'";
                          exc_frames := [] |}
      end
  end.

(** The locals of [create_html_report]: the ids of the checked chats, the
    chats to analyse, the time gap, the features, the metadata. *)
Definition chat_ids (self : MainWindow) : gset Z :=
  list_to_set
    (chat_id <$> filter (fun checkbox => chat_isChecked checkbox = true)
                        (chat_checkboxes self)).

Definition parsed_chats (self : MainWindow) : list Chat :=
  filter (fun chat => id chat ∈ chat_ids self) (chats self).

Definition time_gap (self : MainWindow) : DateTime * DateTime :=
  let from_datetime := combine (from_date self) time_min in
  let to_datetime := combine (to_date self) time_max in
  let from_datetime := replace_tzinfo from_datetime "UTC" in
  let to_datetime := replace_tzinfo to_datetime "UTC" in
  (from_datetime, to_datetime).

Definition features (self : MainWindow) : gmap string bool :=
  foldl (fun d checkbox =>
           <[feature_name checkbox := feature_isChecked checkbox]> d)
        ∅ (feature_checkboxes self).

Definition metadata_of (self : MainWindow) (ret_parsed_chats : list Chat)
    : Metadata :=
  {| login := "TODO LOGIN";
     metadata_chats := ret_parsed_chats;
     metadata_time_gap := time_gap self |}.

(** The line [print(type(e), e)] writes. *)
Definition print_type_and_value (e : PyExc) : string :=
  "<class '" +:+ class_name (exc_type e) +:+ "'> " +:+ exc_str e.

Section Collaborators.

(** The collaborators imported by the module, which are not part of it: the
    translation catalogues, the analysis engine and the report renderer
    (called with [progress=None] when the task got no handle). *)
Variable gettext : string -> string -> string.
Variable start_analyses :
  list Chat -> DateTime * DateTime -> gmap string bool
  -> Body (PyObject * list Chat) false.
Variable html_export :
  string -> Metadata -> PyObject -> string -> string
  -> forall g : bool, Body PyObject g.

Definition create_html_report (self : MainWindow) (g : bool) : Body PyObject g :=
  and_then
    (without_handle
       (start_analyses (parsed_chats self) (time_gap self) (features self)))
    (fun '(ret_stats, ret_parsed_chats) =>
       let metadata := metadata_of self ret_parsed_chats in
       and_then
         (try_except
            (match report_path self with
             | Raised e => Raise e
             | Returned path =>
                 html_export path metadata ret_stats (lang self)
                             (theme_combobox self) g
             end)
            Exception
            (fun e => Print (print_type_and_value e) (Return PyNone)))
         (fun _ => Return PyNone)).

(** The bound method [self.create_html_report] as the function of a task: it
    takes no positional argument. It reads the window as it is when the task
    is created; the window's thread is in the dialog's modal loop meanwhile. *)
Definition create_html_report_method (self : MainWindow) : Callable :=
  fun args g =>
    match args with
    | [] => create_html_report self g
    | _ :: _ =>
        Raise {| exc_type := Subclass "TypeError" Exception;
                 exc_str := "create_html_report() takes from 1 to 2 positional arguments";
                 exc_frames := [] |}
    end.

Definition create_report (self : MainWindow) : MainWindow :=
  match data_path self with
  | None => self
  | Some path =>
      let self :=
        set_report_info
          (<["path" := Path.str (Path.joinpath (Path.parent path) "index.html")]> ∅)
          self in
      let dialog :=
        ProgressBarDialog.__init__
          (gettext (lang self)
                   "Loading... Processing data and creating a report file.")
          (winId self) in
      let dialog_id := next_object self in
      let worker :=
        Worker.__init__ (S dialog_id) (create_html_report_method self) [] true in
      start_task dialog worker
        [ {| sender := signals worker; signal := progress;
             slot := update_progressbar dialog_id |};
          {| sender := signals worker; signal := finished;
             slot := open_report |} ]
        self
  end.

End Collaborators.

(** A slot called with what the signal carries: [progress] is a
    [Signal(int)]. [open_report] is the lambda connected to [finished]: it
    reads [report_info] when it is called. *)
Definition call_slot (s : Slot) (ev : Event) (self : MainWindow) : MainWindow :=
  match s, ev with
  | update_progressbar d, Progress percent =>
      set_dialogs
        (alter (ProgressBarDialog.update_progressbar (Signal_int percent)) d
               (dialogs self))
        self
  | open_report, Finished =>
      match report_path self with
      | Returned path => webbrowser_open path self
      | Raised _ => self
      end
  | _, _ => self
  end.

(** The connection [c] is notified of the event [ev] of the [WorkerSignals]
    object [sig]: its slot is called when it is connected to that signal of
    that object. *)
Definition notify (sig : SignalsId) (ev : Event) (st : MainWindow)
    (c : Connection) : MainWindow :=
  if decide (sender c = sig /\ signal c = signal_of ev)
  then call_slot (slot c) ev st else st.

(** One event of the [WorkerSignals] object [sig] reaches every slot
    connected to its signal, in the order of connection. *)
Definition deliver (sig : SignalsId) (ev : Event) (self : MainWindow) : MainWindow :=
  foldl (notify sig ev) self (connections self).

(** The window's thread handles the calls of [emit] in order; a call that
    raised delivered nothing. *)
Definition process_events (sig : SignalsId) (ems : list Emission)
    (self : MainWindow) : MainWindow :=
  foldl (fun st em =>
           match emit_fault em with
           | None => deliver sig (event em) st
           | Some _ => st
           end)
        self ems.

(** The dialog [d] exists and has not been closed. *)
Definition open_at (d : nat) (self : MainWindow) : Prop :=
  exists dialog,
    dialogs self !! d = Some dialog
    /\ ProgressBarDialog.closed dialog = false.

End MainWindow.

(** ** Sample tasks and windows *)
Module Examples.
Import Py Worker.

Definition world0 : World := {| channels := ∅; stderr := []; stdout := [] |}.

(** Every call of [emit] goes through. *)
Definition emit_ok : Event -> option PyExc := fun _ => None.

Definition runtime_error : PyExc :=
  {| exc_type := Subclass "RuntimeError" Exception;
     exc_str := "Internal C++ object (WorkerSignals) already deleted.";
     exc_frames := [] |}.

(** Emitting the result or the error raises; emitting finished does not. *)
Definition emit_terminal_raises : Event -> option PyExc :=
  fun ev => if is_terminal ev then Some runtime_error else None.

(** "return 42 after emitting progress 0, 50, 100" *)
Definition return_42 : Callable :=
  fun _ g =>
    match g with
    | true => EmitProgress 0 (EmitProgress 50 (EmitProgress 100 (Return (PyInt 42))))
    | false => Return (PyInt 42)
    end.

Definition fault_X : PyExc :=
  {| exc_type := ValueError; exc_str := "X";
     exc_frames := ["  File task.py, line 3, in operation"] |}.

(** "raise fault X after emitting progress 20" *)
Definition raise_X : Callable :=
  fun _ g =>
    match g with
    | true => EmitProgress 20 (Raise fault_X)
    | false => Raise fault_X
    end.

Definition system_exit : PyExc :=
  {| exc_type := SystemExit; exc_str := "1";
     exc_frames := ["  File task.py, line 5, in operation"] |}.

(** A function that calls [sys.exit(1)] after emitting progress 20. *)
Definition call_sys_exit : Callable :=
  fun _ g =>
    match g with
    | true => EmitProgress 20 (Raise system_exit)
    | false => Raise system_exit
    end.

Definition keyboard_interrupt : PyExc :=
  {| exc_type := KeyboardInterrupt; exc_str := ""; exc_frames := [] |}.

(** A function that raises [KeyboardInterrupt]. *)
Definition interrupted : Callable := fun _ g => Raise keyboard_interrupt.

(** A class derived from [BaseException] directly. *)
Definition stop_request : PyExc :=
  {| exc_type := Subclass "StopRequest" BaseException; exc_str := "stop";
     exc_frames := [] |}.

Definition stopped : Callable := fun _ g => Raise stop_request.

Definition worker_42 : Worker := Worker.__init__ 7%nat return_42 [] true.
Definition worker_X : Worker := Worker.__init__ 7%nat raise_X [] true.
Definition worker_X_plain : Worker := Worker.__init__ 7%nat raise_X [PyInt 1] false.
Definition worker_exit : Worker := Worker.__init__ 7%nat call_sys_exit [] true.
Definition worker_interrupted : Worker := Worker.__init__ 7%nat interrupted [] false.
Definition worker_stopped : Worker := Worker.__init__ 7%nat stopped [] true.

(** A window with a data file selected and one chat checked. *)
Definition window0 : MainWindow.MainWindow :=
  {| MainWindow.winId := 1;
     MainWindow.lang := "en_US.UTF-8";
     MainWindow.data_path :=
       Some {| Path.anchor := "/"; Path.parts := ["home"; "user"; "result.json"] |};
     MainWindow.chats :=
       [ {| MainWindow.id := 10; MainWindow.name := Some "Alice";
            MainWindow.type := "personal_chat"; MainWindow.messages := ["hi"] |} ];
     MainWindow.chat_checkboxes :=
       [ {| MainWindow.chat_id := 10; MainWindow.chat_isChecked := true |} ];
     MainWindow.feature_checkboxes :=
       [ {| MainWindow.feature_name := "word"; MainWindow.feature_isChecked := true |} ];
     MainWindow.from_date := {| MainWindow.year := 2019; MainWindow.month := 5; MainWindow.day := 1 |};
     MainWindow.to_date := {| MainWindow.year := 2024; MainWindow.month := 5; MainWindow.day := 1 |};
     MainWindow.theme_combobox := "light";
     MainWindow.report_info := None;
     MainWindow.threadpool := [];
     MainWindow.dialogs := ∅;
     MainWindow.connections := [];
     MainWindow.next_object := 2;
     MainWindow.webbrowser := [] |}.

(** The same window before any data file is selected. *)
Definition window_no_data : MainWindow.MainWindow :=
  {| MainWindow.winId := 1;
     MainWindow.lang := "en_US.UTF-8";
     MainWindow.data_path := None;
     MainWindow.chats := [];
     MainWindow.chat_checkboxes := [];
     MainWindow.feature_checkboxes := MainWindow.feature_checkboxes window0;
     MainWindow.from_date := MainWindow.from_date window0;
     MainWindow.to_date := MainWindow.to_date window0;
     MainWindow.theme_combobox := "light";
     MainWindow.report_info := None;
     MainWindow.threadpool := [];
     MainWindow.dialogs := ∅;
     MainWindow.connections := [];
     MainWindow.next_object := 2;
     MainWindow.webbrowser := [] |}.

(** [NullTranslations]: every message is its own translation. *)
Definition gettext_null : string -> string -> string := fun _ msgid => msgid.

Definition analyses_ok
    : list MainWindow.Chat -> MainWindow.DateTime * MainWindow.DateTime
      -> gmap string bool -> Body (PyObject * list MainWindow.Chat) false :=
  fun chats _ _ => Return (PyStr "stats", chats).

Definition analyses_fault
    : list MainWindow.Chat -> MainWindow.DateTime * MainWindow.DateTime
      -> gmap string bool -> Body (PyObject * list MainWindow.Chat) false :=
  fun _ _ _ => Raise fault_X.

(** A renderer that reports 50 and 100 percent when it has the handle. *)
Definition export_ok
    : string -> MainWindow.Metadata -> PyObject -> string -> string
      -> forall g : bool, Body PyObject g :=
  fun _ _ _ _ _ g =>
    match g with
    | true => EmitProgress 50 (EmitProgress 100 (Return PyNone))
    | false => Return PyNone
    end.

(** A renderer that raises [ValueError] after reporting 20 percent. *)
Definition export_fault
    : string -> MainWindow.Metadata -> PyObject -> string -> string
      -> forall g : bool, Body PyObject g :=
  fun _ _ _ _ _ g =>
    match g with
    | true => EmitProgress 20 (Raise fault_X)
    | false => Raise fault_X
    end.

(** A renderer that calls [sys.exit(1)]. *)
Definition export_exit
    : string -> MainWindow.Metadata -> PyObject -> string -> string
      -> forall g : bool, Body PyObject g :=
  fun _ _ _ _ _ g => Raise system_exit.

(** [window0] once [create_report] has stored the path of the report. *)
Definition window_reporting : MainWindow.MainWindow :=
  MainWindow.set_report_info (<["path" := "/home/user/index.html"]> ∅) window0.

(** [window0] after [create_report], with an analysis engine that faults. *)
Definition window_started : MainWindow.MainWindow :=
  MainWindow.create_report gettext_null analyses_fault export_ok window0.

End Examples.

(** ** THEMES *)
Module Themes.

(** The character [.] *)
Definition dot : Ascii.ascii := Ascii.ascii_of_nat 46.

(** [name.partition('.')[0]]: what precedes the first dot, or the whole name
    when it has no dot. *)
Fixpoint before_dot (name : string) : string :=
  match name with
  | EmptyString => EmptyString
  | String c rest =>
      if Ascii.eqb c dot then EmptyString else String c (before_dot rest)
  end.

Fixpoint has_dot (name : string) : bool :=
  match name with
  | EmptyString => false
  | String c rest => Ascii.eqb c dot || has_dot rest
  end.

(** [THEMES], from the names of the entries of [THEMES_PATH]. *)
Definition THEMES (names : list string) : list string := before_dot <$> names.

End Themes.

(** ** The chat area, the data file and the construction of the window *)
Module ChatArea.
Import Py Worker MainWindow.

(** A checkbox as [chats_layout] shows it: the text given to [QCheckBox] and
    the [chat_id] attribute. Whether it is checked is held by the checkbox
    of the same rank in [chat_checkboxes]. *)
Record ChatItem : Type := { item_text : option string; item_chat_id : Z }.

(** The window with the widgets of the chat area: the attributes modelled in
    [MainWindow], the text of [data_path_label], the items of [chats_layout]
    in order, the value of [complex_choice_spin], the checkboxes on which
    [deleteLater] was called, and the [WorkerSignals] objects whose [result]
    signal is connected to [create_and_show_chats]. *)
Record Window : Type := {
  main : MainWindow;
  data_path_label : string;
  chats_layout : list ChatItem;
  complex_choice_spin : Z;
  deleted_later : list ChatCheckBox;
  result_connections : list SignalsId;
}.

Definition set_main (m : MainWindow) (w : Window) : Window :=
  {| main := m; data_path_label := data_path_label w;
     chats_layout := chats_layout w;
     complex_choice_spin := complex_choice_spin w;
     deleted_later := deleted_later w;
     result_connections := result_connections w |}.

Definition set_chats_layout (items : list ChatItem) (w : Window) : Window :=
  {| main := main w; data_path_label := data_path_label w;
     chats_layout := items;
     complex_choice_spin := complex_choice_spin w;
     deleted_later := deleted_later w;
     result_connections := result_connections w |}.

Definition set_chats (cs : list Chat) (self : MainWindow) : MainWindow :=
  {| winId := winId self; lang := lang self; data_path := data_path self;
     chats := cs; chat_checkboxes := chat_checkboxes self;
     feature_checkboxes := feature_checkboxes self;
     from_date := from_date self; to_date := to_date self;
     theme_combobox := theme_combobox self;
     report_info := report_info self;
     threadpool := threadpool self; dialogs := dialogs self;
     connections := connections self; next_object := next_object self;
     webbrowser := webbrowser self |}.

Definition set_chat_checkboxes (boxes : list ChatCheckBox) (self : MainWindow)
    : MainWindow :=
  {| winId := winId self; lang := lang self; data_path := data_path self;
     chats := chats self; chat_checkboxes := boxes;
     feature_checkboxes := feature_checkboxes self;
     from_date := from_date self; to_date := to_date self;
     theme_combobox := theme_combobox self;
     report_info := report_info self;
     threadpool := threadpool self; dialogs := dialogs self;
     connections := connections self; next_object := next_object self;
     webbrowser := webbrowser self |}.

Definition set_data_path (p : Path.Path) (self : MainWindow) : MainWindow :=
  {| winId := winId self; lang := lang self; data_path := Some p;
     chats := chats self; chat_checkboxes := chat_checkboxes self;
     feature_checkboxes := feature_checkboxes self;
     from_date := from_date self; to_date := to_date self;
     theme_combobox := theme_combobox self;
     report_info := report_info self;
     threadpool := threadpool self; dialogs := dialogs self;
     connections := connections self; next_object := next_object self;
     webbrowser := webbrowser self |}.

Definition IndexError (what : string) : PyExc :=
  {| exc_type := Subclass "IndexError" LookupError;
     exc_str := what; exc_frames := [] |}.

(** [for i in range(n - 1, -1, -1)]: the indices from [n - 1] down to 0. *)
Definition range_down (n : nat) : list nat := rev (seq 0 n).

(** [for x in xs: body x]; a fault of the body ends the loop. *)
Fixpoint for_each {S A} (xs : list A) (body : A -> M S unit) : M S unit :=
  match xs with
  | [] => ret tt
  | x :: rest => (body x ;; for_each rest body)%py
  end.

(** [self.chats_layout.removeItem(self.chats_layout.itemAt(i))]: the item of
    rank [i] leaves the layout; [itemAt] gives no item out of range, and
    removing no item does nothing. *)
Definition removeItem_itemAt (i : nat) : M Window unit :=
  fun w => (Returned tt, set_chats_layout (delete i (chats_layout w)) w).

(** [self.chat_checkboxes[i].deleteLater()]; indexing out of range raises. *)
Definition deleteLater_at (i : nat) : M Window unit :=
  fun w =>
    match chat_checkboxes (main w) !! i with
    | Some checkbox =>
        (Returned tt,
         {| main := main w; data_path_label := data_path_label w;
            chats_layout := chats_layout w;
            complex_choice_spin := complex_choice_spin w;
            deleted_later := deleted_later w ++ [checkbox];
            result_connections := result_connections w |})
    | None => (Raised (IndexError "list index out of range"), w)
    end.

(** [del self.chat_checkboxes[i]]; deleting out of range raises. *)
Definition del_chat_checkbox (i : nat) : M Window unit :=
  fun w =>
    match chat_checkboxes (main w) !! i with
    | Some _ =>
        (Returned tt,
         set_main (set_chat_checkboxes (delete i (chat_checkboxes (main w)))
                                       (main w)) w)
    | None => (Raised (IndexError "list assignment index out of range"), w)
    end.

(** [del self.chats[i]] *)
Definition del_chat (i : nat) : M Window unit :=
  fun w =>
    match chats (main w) !! i with
    | Some _ =>
        (Returned tt, set_main (set_chats (delete i (chats (main w))) (main w)) w)
    | None => (Raised (IndexError "list assignment index out of range"), w)
    end.

Definition clear_chat_area : M Window unit :=
  ((fun w =>
      let count := length (chats_layout w) in
      match count with
      | O => ret tt w
      | S _ => for_each (range_down count) removeItem_itemAt w
      end) ;;
   (fun w =>
      match chat_checkboxes (main w) with
      | [] => ret tt w
      | _ :: _ =>
          for_each (range_down (length (chat_checkboxes (main w))))
                   (fun i => (deleteLater_at i ;; del_chat_checkbox i)%py) w
      end))%py.

(** A new [QCheckBox(chat.name, self)] with [chat_id = chat.id]: it is not
    checked. It is appended to [chat_checkboxes] and added to
    [chats_layout]. *)
Definition add_checkbox (chat : Chat) (w : Window) : Window :=
  let checkbox := {| chat_id := id chat; chat_isChecked := false |} in
  set_chats_layout
    (chats_layout w ++ [ {| item_text := name chat; item_chat_id := id chat |} ])
    (set_main (set_chat_checkboxes (chat_checkboxes (main w) ++ [checkbox])
                                   (main w)) w).

(** [chat.type in {"personal_chat", "private_group", "private_supergroup"}] *)
Definition is_shown_type (t : string) : bool :=
  bool_decide (t = "personal_chat")
  || bool_decide (t = "private_group")
  || bool_decide (t = "private_supergroup").

Definition has_name (chat : Chat) : bool :=
  match name chat with Some _ => true | None => false end.

Definition create_and_show_chats (all_chats : list Chat) (w : Window) : Window :=
  let kept :=
    List.filter (fun chat => is_shown_type (type chat) && has_name chat) all_chats in
  let w := set_main (set_chats kept (main w)) w in
  foldl (fun w chat => add_checkbox chat w) w (chats (main w)).

Definition show_chat_with_filter (key : Chat -> bool) : M Window unit :=
  (clear_chat_area ;;
   (fun w =>
      (Returned tt,
       foldl (fun w chat => if key chat then add_checkbox chat w else w)
             w (chats (main w)))))%py.

Definition show_all_chats : M Window unit :=
  show_chat_with_filter (fun chat => true).

Definition show_only_private_chats : M Window unit :=
  show_chat_with_filter (fun chat => bool_decide (type chat = "personal_chat")).

Definition show_only_public_chats : M Window unit :=
  show_chat_with_filter
    (fun chat => bool_decide (type chat = "private_group")
                 || bool_decide (type chat = "private_supergroup")).

(** [checkbox.setCheckState(...)] *)
Definition setCheckState (checked : bool) (checkbox : ChatCheckBox) : ChatCheckBox :=
  {| chat_id := chat_id checkbox; chat_isChecked := checked |}.

Definition choice_all_chat (w : Window) : Window :=
  set_main (set_chat_checkboxes (setCheckState true <$> chat_checkboxes (main w))
                                (main w)) w.

Definition choice_nothing_chat (w : Window) : Window :=
  set_main (set_chat_checkboxes (setCheckState false <$> chat_checkboxes (main w))
                                (main w)) w.

(** The ids of the chats with more than [n] messages. *)
Definition chats_longer_than (n : Z) (cs : list Chat) : gset Z :=
  list_to_set
    (id <$> filter (fun chat => n < Z.of_nat (length (messages chat))) cs).

Definition complex_chat_choice (w : Window) : Window :=
  let w := choice_nothing_chat w in
  let n := complex_choice_spin w in
  let chat_ids := chats_longer_than n (chats (main w)) in
  set_main
    (set_chat_checkboxes
       ((fun checkbox =>
           if decide (chat_id checkbox ∈ chat_ids)
           then setCheckState true checkbox else checkbox)
          <$> chat_checkboxes (main w))
       (main w)) w.

(** [create_report] on the window. *)
Definition create_report (gettext : string -> string -> string)
    (start_analyses :
       list Chat -> DateTime * DateTime -> gmap string bool
       -> Body (PyObject * list Chat) false)
    (html_export :
       string -> Metadata -> PyObject -> string -> string
       -> forall g : bool, Body PyObject g)
    (w : Window) : Window :=
  set_main (MainWindow.create_report gettext start_analyses html_export (main w)) w.

Section DataFile.

(** The collaborators: the translation catalogues, [pathlib.Path] applied to
    a string, and the loader [start_creator]. *)
Variable gettext : string -> string -> string.
Variable Path_of : string -> Path.Path.
Variable start_creator : Callable.

(** [select_data_file]; [path] is what [QFileDialog.getOpenFileName] gave:
    the empty string when the user cancelled. *)
Definition select_data_file (path : string) : M Window unit :=
  match path with
  | EmptyString => ret tt
  | String _ _ =>
      (clear_chat_area ;;
       (fun w =>
          match chats (main w) with
          | [] => ret tt w
          | _ :: _ => for_each (range_down (length (chats (main w)))) del_chat w
          end) ;;
       (fun w =>
          let self := set_data_path (Path_of path) (main w) in
          let dialog :=
            ProgressBarDialog.__init__
              (gettext (lang self)
                       "Loading... Opening and processing the export file.")
              (winId self) in
          let dialog_id := next_object self in
          let worker :=
            Worker.__init__ (S dialog_id) start_creator [PyStr path] true in
          (Returned tt,
           {| main :=
                start_task dialog worker
                  [ {| sender := signals worker; signal := progress;
                       slot := update_progressbar dialog_id |} ]
                  self;
              data_path_label := path;
              chats_layout := chats_layout w;
              complex_choice_spin := complex_choice_spin w;
              deleted_later := deleted_later w;
              result_connections := result_connections w ++ [signals worker] |})))%py
  end.

End DataFile.

(** The result of a loader reaches [create_and_show_chats] once for each
    connection of the [result] signal of [sig] to it. *)
Definition deliver_result (sig : SignalsId) (all_chats : list Chat) (w : Window)
    : Window :=
  foldl (fun w s => if decide (s = sig) then create_and_show_chats all_chats w else w)
        w (result_connections w).

(** The keys of [LOCALES]. *)
Definition LOCALES : list string := ["ru_RU.UTF-8"; "en_US.UTF-8"].

(** The keys of [self.features], in the order of the dict. *)
Definition feature_names : list string :=
  ["symb"; "word"; "msg"; "voice_message"; "video_message"; "video_file";
   "photo"; "day_night"].

(** Leap years and the days of a month, for [QDate]. *)
Definition is_leap_year (y : Z) : bool :=
  ((y mod 4 =? 0) && negb (y mod 100 =? 0)) || (y mod 400 =? 0).

Definition days_in_month (y m : Z) : Z :=
  if m =? 2 then (if is_leap_year y then 29 else 28)
  else if (m =? 4) || (m =? 6) || (m =? 9) || (m =? 11) then 30
  else 31.

(** [QDate(y, m, d).isValid()] for a year after 0. *)
Definition QDate_isValid (y m d : Z) : bool :=
  (0 <? y) && (1 <=? m) && (m <=? 12) && (1 <=? d) && (d <=? days_in_month y m).

(** The date a [QDateEdit] built on [QDate(y, m, d)] holds: 1 January 2000
    when the date is not valid. *)
Definition QDateEdit (y m d : Z) : Date :=
  if QDate_isValid y m d then {| year := y; month := m; day := d |}
  else {| year := 2000; month := 1; day := 1 |}.

(** [MainWindow(lang=lang)] built on the day [today], a date of the
    calendar, with the themes [themes] in the combo box; [LOCALES[lang]] and
    the assertion on the year can fail. The window is object [winId]; the
    widgets it creates are not numbered. *)
Definition __init__ (winId : nat) (themes : list string) (lang : string)
    (today : Date) : Outcome Window :=
  if bool_decide (lang ∈ LOCALES) then
    if 0 <? year today - 5 then
      Returned
        {| main :=
             {| MainWindow.winId := winId;
                MainWindow.lang := lang;
                data_path := None;
                chats := [];
                chat_checkboxes := [];
                feature_checkboxes :=
                  (fun feature =>
                     {| feature_name := feature; feature_isChecked := true |})
                    <$> feature_names;
                from_date := QDateEdit (year today - 5) (month today) (day today);
                to_date :=
                  {| year := year today; month := month today; day := day today |};
                theme_combobox := default "" (head themes);
                report_info := None;
                threadpool := [];
                dialogs := ∅;
                connections := [];
                next_object := S winId;
                webbrowser := [] |};
           data_path_label := "";
           chats_layout := [];
           complex_choice_spin := 100;
           deleted_later := [];
           result_connections := [] |}
    else Raised {| exc_type := Subclass "AssertionError" Exception;
                   exc_str := ""; exc_frames := [] |}
  else Raised {| exc_type := KeyError; exc_str := repr lang;
                 exc_frames := [] |}.

(** What the chat area shows is what [chat_checkboxes] holds: the same
    chats, in the same order. *)
Definition aligned (w : Window) : Prop :=
  item_chat_id <$> chats_layout w = chat_id <$> chat_checkboxes (main w).

(** No connection is to an object that is not created yet. *)
Definition fresh (self : MainWindow) : Prop :=
  Forall (fun c => (sender c < next_object self)%nat) (connections self).

End ChatArea.

(** ** More sample tasks and windows *)
Module Examples2.
Import Py Worker Examples.

(** The task "return 42 ..." of another [WorkerSignals] object. *)
Definition worker_42_other : Worker := Worker.__init__ 9%nat return_42 [] true.

(** [window0] with its chat area: one checkbox, checked, for the chat of
    the window, and 100 in the spin box. *)
Definition chat_window0 : ChatArea.Window :=
  {| ChatArea.main := window0;
     ChatArea.data_path_label := "/home/user/result.json";
     ChatArea.chats_layout :=
       [ {| ChatArea.item_text := Some "Alice"; ChatArea.item_chat_id := 10 |} ];
     ChatArea.complex_choice_spin := 100;
     ChatArea.deleted_later := [];
     ChatArea.result_connections := [] |}.

(** A stand-in for [pathlib.Path] on the paths of the samples. *)
Definition Path_of_sample : string -> Path.Path :=
  fun _ => {| Path.anchor := "/"; Path.parts := ["home"; "user"; "other.json"] |}.

(** A loader that reports 100 and returns. *)
Definition creator_ok : Callable :=
  fun _ g =>
    match g with
    | true => EmitProgress 100 (Return PyNone)
    | false => Return PyNone
    end.

(** A renderer that reports 2^32 + 100, which no 32-bit [int] holds, and
    returns. *)
Definition export_wrapped
    : string -> MainWindow.Metadata -> PyObject -> string -> string
      -> forall g : bool, Body PyObject g :=
  fun _ _ _ _ _ g =>
    match g with
    | true => EmitProgress 4294967396 (Return PyNone)
    | false => Return PyNone
    end.

(** Chats as a loader can return them: a personal chat, a channel, a group
    without a name and a group. *)
Definition loaded_chats : list MainWindow.Chat :=
  [ {| MainWindow.id := 1; MainWindow.name := Some "Bob";
       MainWindow.type := "personal_chat"; MainWindow.messages := ["a"; "b"] |};
    {| MainWindow.id := 2; MainWindow.name := Some "News";
       MainWindow.type := "public_channel"; MainWindow.messages := [] |};
    {| MainWindow.id := 3; MainWindow.name := None;
       MainWindow.type := "private_group"; MainWindow.messages := ["c"] |};
    {| MainWindow.id := 4; MainWindow.name := Some "Team";
       MainWindow.type := "private_supergroup"; MainWindow.messages := [] |} ].

End Examples2.

(** * Properties *)

Import Py Worker.

(** ** Worlds *)

Lemma extends_refl sig w : extends sig [] [] [] w w.
Proof. unfold extends. by rewrite !app_nil_r. Qed.

Lemma extends_trans sig ems1 ems2 err1 err2 out1 out2 w w1 w2 :
  extends sig ems1 err1 out1 w w1 ->
  extends sig ems2 err2 out2 w1 w2 ->
  extends sig (ems1 ++ ems2) (err1 ++ err2) (out1 ++ out2) w w2.
Proof.
  intros (Hc1 & Hf1 & He1 & Ho1) (Hc2 & Hf2 & He2 & Ho2).
  repeat split.
  - by rewrite Hc2, Hc1, app_assoc.
  - intros j Hj. by rewrite Hf2, Hf1.
  - by rewrite He2, He1, app_assoc.
  - by rewrite Ho2, Ho1, app_assoc.
Qed.

Lemma extends_record sig em w : extends sig [em] [] [] w (record sig em w).
Proof.
  unfold extends, record, channel; simpl. repeat split.
  - by rewrite lookup_total_insert_eq.
  - intros j Hj. by rewrite lookup_insert_ne.
  - by rewrite app_nil_r.
  - by rewrite app_nil_r.
Qed.

Lemma extends_print sig line w : extends sig [] [] [line] w (print line w).
Proof. unfold extends, print, channel; simpl. by rewrite !app_nil_r. Qed.

Lemma extends_emitted sig ems err out w w' :
  extends sig ems err out w w' -> emitted sig w w' = ems.
Proof.
  intros (Hc & _). unfold emitted. rewrite Hc. by rewrite drop_app_length.
Qed.

(** ** The call of the task's function *)

Lemma exec_spec {A g} sig (b : Body A g) w :
  (exec sig b w).1 = outcome_of b
  /\ extends sig (progress_emission <$> progress_calls b) [] (printed b)
             w (exec sig b w).2.
Proof.
  revert w. induction b as [g a|g e|g line k IH|p k IH]; intros w; simpl.
  - split; [done|apply extends_refl].
  - split; [done|apply extends_refl].
  - destruct (IH (print line w)) as [Ho Hx]. split; [done|].
    apply (extends_trans sig [] _ [] [] [line] _ _ _ _ (extends_print sig line w) Hx).
  - destruct (IH (record sig (progress_emission p) w)) as [Ho Hx]. split; [done|].
    apply (extends_trans sig [_] _ [] [] [] _ _ _ _
             (extends_record sig (progress_emission p) w) Hx).
Qed.

Lemma progress_calls_without_handle {A g} (b : Body A g) :
  g = false -> progress_calls b = [].
Proof. induction b; intros Hg; simpl; auto; discriminate. Qed.

Lemma call_body self w : call self w = exec (signals self) (body self) w.
Proof. unfold call, body. by destruct (progress_flag self). Qed.

(** ** Worker.run, case by case *)

Section RunCases.

Variable emit_raises : Event -> option PyExc.

Lemma emit_spec sig ev w :
  (emit emit_raises sig ev w).1 = after_emit emit_raises ev
  /\ extends sig [emission emit_raises ev] [] [] w (emit emit_raises sig ev w).2.
Proof.
  unfold emit, after_emit. pose proof (extends_record sig (emission emit_raises ev) w) as Hx.
  by destruct (emit_raises ev).
Qed.

Lemma run_returned self w v :
  outcome_of (body self) = Returned v ->
  (run emit_raises self w).1 = after_finally emit_raises (after_emit emit_raises (Result v))
  /\ extends (signals self)
       ((progress_emission <$> progress_calls (body self))
          ++ [emission emit_raises (Result v); emission emit_raises Finished])
       [] (printed (body self)) w (run emit_raises self w).2.
Proof.
  intros Hv. unfold run, try_except_else_finally. rewrite call_body.
  destruct (exec_spec (signals self) (body self) w) as [Ho Hx].
  destruct (exec (signals self) (body self) w) as [r w1]; simpl in Ho, Hx.
  rewrite Ho, Hv.
  destruct (emit_spec (signals self) (Result v) w1) as [Ho2 Hx2].
  destruct (emit emit_raises (signals self) (Result v) w1) as [r2 w2]; simpl in Ho2, Hx2.
  destruct (emit_spec (signals self) Finished w2) as [Ho3 Hx3].
  destruct (emit emit_raises (signals self) Finished w2) as [r3 w3]; simpl in Ho3, Hx3.
  pose proof (extends_trans _ _ _ _ _ _ _ _ _ _ Hx (extends_trans _ _ _ _ _ _ _ _ _ _ Hx2 Hx3)) as H.
  simpl in H. rewrite !app_nil_r in H.
  split; [|destruct r3; exact H].
  subst r2. unfold after_finally. unfold after_emit in Ho3.
  destruct r3, (emit_raises Finished); simpl; congruence.
Qed.

Lemma run_caught self w e :
  outcome_of (body self) = Raised e ->
  issubclass (exc_type e) Exception = true ->
  (run emit_raises self w).1
    = after_finally emit_raises (after_emit emit_raises (Error (exc_type e, e, format_exc e)))
  /\ extends (signals self)
       ((progress_emission <$> progress_calls (body self))
          ++ [emission emit_raises (Error (exc_type e, e, format_exc e)); emission emit_raises Finished])
       [format_exc e] (printed (body self)) w (run emit_raises self w).2.
Proof.
  intros He Hcls. unfold run, try_except_else_finally. rewrite call_body.
  destruct (exec_spec (signals self) (body self) w) as [Ho Hx].
  destruct (exec (signals self) (body self) w) as [r w1]; simpl in Ho, Hx.
  rewrite Ho, He, Hcls. unfold bind, print_exc.
  set (w1' := {| channels := channels w1; stderr := stderr w1 ++ [format_exc e];
                 stdout := stdout w1 |}).
  assert (Hx1 : extends (signals self) [] [format_exc e] [] w1 w1').
  { unfold extends, channel; simpl. by rewrite !app_nil_r. }
  set (ev := Error (exc_type e, e, format_exc e)).
  destruct (emit_spec (signals self) ev w1') as [Ho2 Hx2].
  destruct (emit emit_raises (signals self) ev w1') as [r2 w2]; simpl in Ho2, Hx2.
  destruct (emit_spec (signals self) Finished w2) as [Ho3 Hx3].
  destruct (emit emit_raises (signals self) Finished w2) as [r3 w3]; simpl in Ho3, Hx3.
  pose proof (extends_trans _ _ _ _ _ _ _ _ _ _ Hx
               (extends_trans _ _ _ _ _ _ _ _ _ _ Hx1
                  (extends_trans _ _ _ _ _ _ _ _ _ _ Hx2 Hx3))) as H.
  simpl in H. rewrite !app_nil_r in H.
  split; [|destruct r3; exact H].
  subst r2. unfold after_finally. unfold after_emit in Ho3.
  destruct r3, (emit_raises Finished); simpl; congruence.
Qed.

Lemma run_uncaught self w e :
  outcome_of (body self) = Raised e ->
  issubclass (exc_type e) Exception = false ->
  (run emit_raises self w).1 = after_finally emit_raises (Raised e)
  /\ extends (signals self)
       ((progress_emission <$> progress_calls (body self)) ++ [emission emit_raises Finished])
       [] (printed (body self)) w (run emit_raises self w).2.
Proof.
  intros He Hcls. unfold run, try_except_else_finally. rewrite call_body.
  destruct (exec_spec (signals self) (body self) w) as [Ho Hx].
  destruct (exec (signals self) (body self) w) as [r w1]; simpl in Ho, Hx.
  rewrite Ho, He, Hcls.
  destruct (emit_spec (signals self) Finished w1) as [Ho3 Hx3].
  destruct (emit emit_raises (signals self) Finished w1) as [r3 w3]; simpl in Ho3, Hx3.
  pose proof (extends_trans _ _ _ _ _ _ _ _ _ _ Hx Hx3) as H.
  simpl in H. rewrite !app_nil_r in H.
  split; [|destruct r3; exact H].
  unfold after_finally. unfold after_emit in Ho3.
  destruct r3, (emit_raises Finished); simpl; congruence.
Qed.

End RunCases.

(** ** Event sequences *)

Lemma events_of_progress ps (rest : list Emission) :
  event <$> ((progress_emission <$> ps) ++ rest)
  = (Progress <$> ps) ++ (event <$> rest).
Proof. rewrite fmap_app. f_equal. by rewrite <- list_fmap_compose. Qed.

Lemma well_ordered_progress ps terminal :
  well_ordered ((Progress <$> ps) ++ [terminal; Finished]) = is_terminal terminal.
Proof. induction ps as [|p ps IH]; simpl; [by destruct terminal | exact IH]. Qed.

Lemma well_ordered_spec evs :
  well_ordered evs = true
  <-> exists ps terminal,
        evs = (Progress <$> ps) ++ [terminal; Finished]
        /\ is_terminal terminal = true.
Proof.
  split.
  - induction evs as [|ev rest IH]; [discriminate|].
    destruct ev as [p|v|payload|].
    + intros (ps & terminal & -> & Ht)%IH. by exists (p :: ps), terminal.
    + destruct rest as [|[| | |] [|? ?]]; try discriminate.
      intros _. by exists [], (Result v).
    + destruct rest as [|[| | |] [|? ?]]; try discriminate.
      intros _. by exists [], (Error payload).
    + by destruct rest as [|[| | |] [|? ?]].
  - intros (ps & terminal & -> & Ht). by rewrite well_ordered_progress.
Qed.

Lemma well_ordered_no_terminal ps :
  well_ordered ((Progress <$> ps) ++ [Finished]) = false.
Proof. induction ps as [|p ps IH]; simpl; [done | exact IH]. Qed.

Lemma filter_progress_app ps rest :
  List.filter is_progress ((Progress <$> ps) ++ rest)
  = (Progress <$> ps) ++ List.filter is_progress rest.
Proof. induction ps as [|p ps IH]; csimpl; [done | by rewrite IH]. Qed.

Lemma filter_error_app ps rest :
  List.filter is_error ((Progress <$> ps) ++ rest) = List.filter is_error rest.
Proof. induction ps as [|p ps IH]; simpl; [done | exact IH]. Qed.

Lemma finished_not_progress (ps : list Z) : Finished ∉ (Progress <$> ps).
Proof. intros (p & Hp & _)%list_elem_of_fmap. discriminate. Qed.

(** Splits on how the call of the task's function ends and brings in what
    [run] does in that case. *)
Ltac run_cases emit_raises self w :=
  let v := fresh "v" in
  let e := fresh "e" in
  let Hout := fresh "Hout" in
  let Hcls := fresh "Hcls" in
  let Hres := fresh "Hres" in
  let Hext := fresh "Hext" in
  let Hem := fresh "Hem" in
  destruct (outcome_of (body self)) as [v|e] eqn:Hout;
  [ destruct (run_returned emit_raises self w v Hout) as [Hres Hext]
  | destruct (issubclass (exc_type e) Exception) eqn:Hcls;
    [ destruct (run_caught emit_raises self w e Hout Hcls) as [Hres Hext]
    | destruct (run_uncaught emit_raises self w e Hout Hcls) as [Hres Hext] ] ];
  pose proof (extends_emitted _ _ _ _ _ _ Hext) as Hem.

(** ** Worker.run *)

Section WorkerRun.

Variable emit_raises : Event -> option PyExc.

(** C1 (as amended): for every task whose function returns or raises a fault
    of class [Exception], the calls of [emit] that [run] makes on the task's
    signals are, in order, the progress events, then exactly one result or
    error event, then exactly one finished event, and nothing after it. *)
Theorem run_event_order (self : Worker) (w : World) :
  handled (outcome_of (body self)) = true ->
  well_ordered (event <$> emitted (signals self) w (run emit_raises self w).2)
  = true.
Proof.
  intros Hh. run_cases emit_raises self w; rewrite Hem, events_of_progress; simpl.
  - by rewrite well_ordered_progress.
  - by rewrite well_ordered_progress.
  - simpl in Hh. congruence.
Qed.

(** C2: whatever the task's function does, and whether or not emitting the
    result or the error raises, [run] emits the finished signal exactly once,
    as its last call of [emit]. *)
Theorem run_finished_unconditionally (self : Worker) (w : World) :
  exists before : list Emission,
    emitted (signals self) w (run emit_raises self w).2
    = before ++ [emission emit_raises Finished]
    /\ Finished ∉ (event <$> before).
Proof.
  run_cases emit_raises self w; rewrite Hem.
  - exists ((progress_emission <$> progress_calls (body self))
              ++ [emission emit_raises (Result v)]).
    split; [by rewrite <- app_assoc|].
    rewrite events_of_progress. intros [H|H]%elem_of_app.
    + by apply finished_not_progress in H.
    + simpl in H. apply list_elem_of_singleton in H. discriminate.
  - exists ((progress_emission <$> progress_calls (body self))
              ++ [emission emit_raises (Error (exc_type e, e, format_exc e))]).
    split; [by rewrite <- app_assoc|].
    rewrite events_of_progress. intros [H|H]%elem_of_app.
    + by apply finished_not_progress in H.
    + simpl in H. apply list_elem_of_singleton in H. discriminate.
  - exists (progress_emission <$> progress_calls (body self)).
    split; [done|].
    rewrite <- (app_nil_r (progress_emission <$> _)), events_of_progress.
    rewrite app_nil_r. apply finished_not_progress.
Qed.

(** C3 (as amended): when the task's function raises a fault of class
    [Exception], [run] emits exactly one error event, whose payload is the
    fault's class, the fault itself and the formatted traceback; the
    traceback is written to stderr; and what leaves [run] is not the fault
    but only what the calls of [emit] raise, if anything. *)
Theorem run_error_event (self : Worker) (w : World) (e : PyExc) :
  outcome_of (body self) = Raised e ->
  issubclass (exc_type e) Exception = true ->
  List.filter is_error
    (event <$> emitted (signals self) w (run emit_raises self w).2)
  = [Error (exc_type e, e, format_exc e)]
  /\ stderr (run emit_raises self w).2 = stderr w ++ [format_exc e]
  /\ (run emit_raises self w).1
     = after_finally emit_raises
         (after_emit emit_raises (Error (exc_type e, e, format_exc e))).
Proof.
  intros He Hcls.
  destruct (run_caught emit_raises self w e He Hcls) as [Hres Hext].
  pose proof (extends_emitted _ _ _ _ _ _ Hext) as Hem.
  destruct Hext as (_ & _ & Herr & _).
  rewrite Hem, events_of_progress, filter_error_app. by simpl.
Qed.

(** C5 (as amended): a fault of class [Exception] raised by the task's
    function stays inside the wrapper: provided emitting the error and the
    finished signals does not itself raise, [run] returns normally, the fault
    has become an error event on the task's own signals, and the channel of
    every other [WorkerSignals] object is unchanged. *)
Theorem run_captures_exception (self : Worker) (w : World) (e : PyExc) :
  outcome_of (body self) = Raised e ->
  issubclass (exc_type e) Exception = true ->
  emit_raises (Error (exc_type e, e, format_exc e)) = None ->
  emit_raises Finished = None ->
  (run emit_raises self w).1 = Returned tt
  /\ Error (exc_type e, e, format_exc e)
       ∈ events (signals self) (run emit_raises self w).2
  /\ forall j : nat, j <> signals self ->
       channels (run emit_raises self w).2 !! j = channels w !! j.
Proof.
  intros He Hcls Hemit Hfin.
  destruct (run_caught emit_raises self w e He Hcls) as [Hres Hext].
  destruct Hext as (Hch & Hframe & _).
  repeat split.
  - rewrite Hres. unfold after_finally, after_emit. by rewrite Hfin, Hemit.
  - unfold events. rewrite Hch, !fmap_app. simpl. set_solver.
  - exact Hframe.
Qed.

(** C6: [run] invokes the function with exactly the stored arguments, and
    with the progress handle only when [progress_flag] is set. Without the
    flag, what [run] emits and prints is what the call of the function on
    the stored arguments alone gives: its output on stdout, no progress
    event, the result or error event of that call, then finished. With the
    flag, it is what the call on the stored arguments and the handle gives:
    the progress events are the calls of the handle made by the function,
    one event per call, in order, followed by the result or error event of
    that call, then finished. *)
Theorem run_progress_handle (self : Worker) (w : World) :
  if progress_flag self
  then event <$> emitted (signals self) w (run emit_raises self w).2
       = (Progress <$> progress_calls (func self (args self) true))
           ++ terminal_events (outcome_of (func self (args self) true))
           ++ [Finished]
       /\ List.filter is_progress
            (event <$> emitted (signals self) w (run emit_raises self w).2)
          = Progress <$> progress_calls (func self (args self) true)
       /\ stdout (run emit_raises self w).2
          = stdout w ++ printed (func self (args self) true)
  else event <$> emitted (signals self) w (run emit_raises self w).2
       = terminal_events (outcome_of (func self (args self) false)) ++ [Finished]
       /\ List.filter is_progress
            (event <$> emitted (signals self) w (run emit_raises self w).2)
          = []
       /\ stdout (run emit_raises self w).2
          = stdout w ++ printed (func self (args self) false).
Proof.
  assert (Hall :
    event <$> emitted (signals self) w (run emit_raises self w).2
    = (Progress <$> progress_calls (body self))
        ++ terminal_events (outcome_of (body self)) ++ [Finished]
    /\ stdout (run emit_raises self w).2 = stdout w ++ printed (body self)).
  { run_cases emit_raises self w; destruct Hext as (_ & _ & _ & Hstdout);
      rewrite Hem, events_of_progress; unfold terminal_events;
      rewrite ?Hcls; by split. }
  assert (Hfilter : forall o,
            List.filter is_progress (terminal_events o ++ [Finished]) = []).
  { intros [v|e]; simpl; [done|]. by destruct (issubclass _ _). }
  revert Hall. unfold body.
  destruct self as [f a flag sig]; simpl. destruct flag; intros [Hev Hstdout].
  - split; [exact Hev|]. split; [|exact Hstdout].
    by rewrite Hev, filter_progress_app, Hfilter, app_nil_r.
  - rewrite (progress_calls_without_handle (f a false)) in Hev by done.
    split; [exact Hev|]. split; [|exact Hstdout].
    rewrite Hev. apply Hfilter.
Qed.

End WorkerRun.

Import Examples.

(** C1, witness: the task "return 42 after emitting progress 0, 50, 100". *)
Lemma run_event_order_witness :
  handled (outcome_of (body worker_42)) = true
  /\ well_ordered
       (event <$> emitted (signals worker_42) world0 (run emit_ok worker_42 world0).2)
     = true.
Proof.
  split; [reflexivity|].
  apply (run_event_order emit_ok worker_42 world0). reflexivity.
Defined.

(** C1 as stated fails: a task whose function calls [sys.exit(1)] after
    emitting progress 20 gets a progress event and a finished event, and
    neither a result nor an error event. *)
Lemma run_event_order_fails_on_sys_exit :
  event <$> emitted (signals worker_exit) world0 (run emit_ok worker_exit world0).2
  = [Progress 20; Finished]
  /\ well_ordered
       (event <$> emitted (signals worker_exit) world0 (run emit_ok worker_exit world0).2)
     = false.
Proof. split; vm_compute; reflexivity. Qed.

(** The scenarios of the two sample tasks. *)
Example run_return_42 :
  events (signals worker_42) (run emit_ok worker_42 world0).2
  = [Progress 0; Progress 50; Progress 100; Result (PyInt 42); Finished]
  /\ (run emit_ok worker_42 world0).1 = Returned tt.
Proof. split; vm_compute; reflexivity. Qed.

Example run_raise_X :
  events (signals worker_X) (run emit_ok worker_X world0).2
  = [Progress 20; Error (ValueError, fault_X, format_exc fault_X); Finished]
  /\ stderr (run emit_ok worker_X world0).2
     = [format_exc fault_X]
  /\ (run emit_ok worker_X world0).1 = Returned tt.
Proof. repeat split; vm_compute; reflexivity. Qed.

(** The finished signal is emitted even when emitting the result raises: the
    fault of [emit] leaves [run] after the finished signal. *)
Example run_finished_when_result_emit_raises :
  emitted (signals worker_42) world0 (run emit_terminal_raises worker_42 world0).2
  = [ progress_emission 0; progress_emission 50; progress_emission 100;
      {| event := Result (PyInt 42); emit_fault := Some runtime_error |};
      {| event := Finished; emit_fault := None |} ]
  /\ (run emit_terminal_raises worker_42 world0).1 = Raised runtime_error.
Proof. split; vm_compute; reflexivity. Qed.

(** C3, witness: the task "raise fault X after emitting progress 20". *)
Lemma run_error_event_witness :
  outcome_of (body worker_X) = Raised fault_X
  /\ issubclass (exc_type fault_X) Exception = true
  /\ List.filter is_error
       (event <$> emitted (signals worker_X) world0 (run emit_ok worker_X world0).2)
     = [Error (ValueError, fault_X, format_exc fault_X)]
  /\ stderr (run emit_ok worker_X world0).2 = stderr world0 ++ [format_exc fault_X]
  /\ (run emit_ok worker_X world0).1
     = after_finally emit_ok
         (after_emit emit_ok (Error (ValueError, fault_X, format_exc fault_X))).
Proof.
  split; [reflexivity|]. split; [reflexivity|].
  apply (run_error_event emit_ok worker_X world0 fault_X); reflexivity.
Defined.

(** C3 as stated fails: for a fault whose class derives from [BaseException]
    directly, [run] emits no error event, writes nothing to stderr and lets
    the fault through. *)
Lemma run_error_event_fails_on_base_exception :
  outcome_of (body worker_stopped) = Raised stop_request
  /\ List.filter is_error
       (event <$> emitted (signals worker_stopped) world0
                          (run emit_ok worker_stopped world0).2)
     = []
  /\ stderr (run emit_ok worker_stopped world0).2 = []
  /\ (run emit_ok worker_stopped world0).1 = Raised stop_request.
Proof. repeat split; vm_compute; reflexivity. Qed.

(** C5, witness: the fault X of a task run without the handle. *)
Lemma run_captures_exception_witness :
  outcome_of (body worker_X_plain) = Raised fault_X
  /\ issubclass (exc_type fault_X) Exception = true
  /\ emit_ok (Error (exc_type fault_X, fault_X, format_exc fault_X)) = None
  /\ emit_ok Finished = None
  /\ (run emit_ok worker_X_plain world0).1 = Returned tt
  /\ Error (exc_type fault_X, fault_X, format_exc fault_X)
       ∈ events (signals worker_X_plain) (run emit_ok worker_X_plain world0).2
  /\ forall j : nat, j <> signals worker_X_plain ->
       channels (run emit_ok worker_X_plain world0).2 !! j = channels world0 !! j.
Proof.
  do 4 (split; [reflexivity|]).
  apply (run_captures_exception emit_ok worker_X_plain world0 fault_X); reflexivity.
Defined.

(** C5 as stated fails: [KeyboardInterrupt] raised by the task's function
    leaves [run] as a raised fault, and no error event is emitted. *)
Lemma run_raises_on_keyboard_interrupt :
  outcome_of (body worker_interrupted) = Raised keyboard_interrupt
  /\ (run emit_ok worker_interrupted world0).1 = Raised keyboard_interrupt
  /\ events (signals worker_interrupted) (run emit_ok worker_interrupted world0).2
     = [Finished].
Proof. repeat split; vm_compute; reflexivity. Qed.

(** ** Function bodies *)

Lemma outcome_of_and_then {A B g} (b : Body A g) (f : A -> Body B g) :
  outcome_of (and_then b f)
  = match outcome_of b with
    | Returned a => outcome_of (f a)
    | Raised e => Raised e
    end.
Proof. induction b; simpl; auto. Qed.

Lemma printed_and_then {A B g} (b : Body A g) (f : A -> Body B g) :
  printed (and_then b f)
  = printed b ++ match outcome_of b with
                 | Returned a => printed (f a)
                 | Raised _ => []
                 end.
Proof. induction b; simpl; auto. by f_equal. Qed.

Lemma outcome_of_try_except {A g} (b : Body A g) cls (handler : PyExc -> Body A g) :
  outcome_of (try_except b cls handler)
  = match outcome_of b with
    | Returned a => Returned a
    | Raised e =>
        if issubclass (exc_type e) cls then outcome_of (handler e) else Raised e
    end.
Proof. induction b; simpl; auto. by destruct (issubclass _ _). Qed.

Lemma printed_try_except {A g} (b : Body A g) cls (handler : PyExc -> Body A g) :
  printed (try_except b cls handler)
  = printed b ++ match outcome_of b with
                 | Returned _ => []
                 | Raised e =>
                     if issubclass (exc_type e) cls then printed (handler e) else []
                 end.
Proof.
  induction b; simpl; auto.
  - by destruct (issubclass _ _).
  - by f_equal.
Qed.

Lemma lift_body_spec {A g g0} (b : Body A g0) :
  (if g0 as g1 return (if g1 then unit else Body A g) -> Prop
   then fun _ => True
   else fun r => outcome_of r = outcome_of b /\ printed r = printed b)
    (@lift_body A g g0 b).
Proof.
  induction b as [g0 a|g0 e|g0 line k IH|p k IH]; simpl.
  - by destruct g0.
  - by destruct g0.
  - destruct g0; [done|]. simpl. destruct IH as [Ho Hp]. by rewrite Ho, Hp.
  - done.
Qed.

Lemma without_handle_spec {A g} (b : Body A false) :
  outcome_of (@without_handle A g b) = outcome_of b
  /\ printed (@without_handle A g b) = printed b.
Proof. exact (lift_body_spec b). Qed.

(** ** ProgressBarDialog *)

Lemma setValue_range percent bar :
  ProgressBarDialog.minimum (ProgressBarDialog.setValue percent bar)
  = ProgressBarDialog.minimum bar
  /\ ProgressBarDialog.maximum (ProgressBarDialog.setValue percent bar)
     = ProgressBarDialog.maximum bar.
Proof. unfold ProgressBarDialog.setValue. by destruct (_ || _). Qed.

Lemma setValue_in_range percent bar :
  ProgressBarDialog.minimum bar <= percent <= ProgressBarDialog.maximum bar ->
  ProgressBarDialog.value (ProgressBarDialog.setValue percent bar) = percent.
Proof.
  intros [Hmin Hmax]. unfold ProgressBarDialog.setValue.
  destruct (ProgressBarDialog.value bar =? percent) eqn:Hv; simpl.
  - by apply Z.eqb_eq.
  - replace (ProgressBarDialog.maximum bar <? percent) with false
      by (symmetry; apply Z.ltb_ge; lia).
    replace (percent <? ProgressBarDialog.minimum bar) with false
      by (symmetry; apply Z.ltb_ge; lia).
    done.
Qed.

Lemma setValue_out_of_range percent bar :
  percent < ProgressBarDialog.minimum bar \/ ProgressBarDialog.maximum bar < percent ->
  ProgressBarDialog.maximum bar <> 0 ->
  ProgressBarDialog.setValue percent bar = bar.
Proof.
  intros Hout Hmax. unfold ProgressBarDialog.setValue.
  replace ((ProgressBarDialog.maximum bar <? percent)
           || (percent <? ProgressBarDialog.minimum bar)) with true.
  - replace (ProgressBarDialog.maximum bar =? 0) with false
      by (symmetry; by apply Z.eqb_neq).
    simpl. by rewrite orb_true_r.
  - symmetry. apply orb_true_iff. rewrite !Z.ltb_lt. tauto.
Qed.

Lemma update_progressbar_bar percent dialog :
  ProgressBarDialog.progress_bar
    (ProgressBarDialog.update_progressbar percent dialog)
  = ProgressBarDialog.setValue percent (ProgressBarDialog.progress_bar dialog).
Proof.
  unfold ProgressBarDialog.update_progressbar. by destruct (percent =? 100).
Qed.

(** C9 (as amended): a dialog just built from a message and a parent is
    open, and its progress bar has the range 0..100 and no value: it reports
    -1, not 0. The first percent received is shown when it lies in 0..100;
    otherwise the bar still has no value. *)
Theorem dialog_starts_open_without_value (message : string) (parent : nat) :
  ProgressBarDialog.closed (ProgressBarDialog.__init__ message parent) = false
  /\ ProgressBarDialog.value
       (ProgressBarDialog.progress_bar (ProgressBarDialog.__init__ message parent))
     = -1
  /\ (forall percent, 0 <= percent <= 100 ->
      ProgressBarDialog.value
        (ProgressBarDialog.progress_bar
           (ProgressBarDialog.update_progressbar percent
              (ProgressBarDialog.__init__ message parent)))
      = percent)
  /\ (forall percent, percent < 0 \/ 100 < percent ->
      ProgressBarDialog.value
        (ProgressBarDialog.progress_bar
           (ProgressBarDialog.update_progressbar percent
              (ProgressBarDialog.__init__ message parent)))
      = -1).
Proof.
  split; [done|]. split; [done|]. split.
  - intros percent Hp. rewrite update_progressbar_bar.
    by apply setValue_in_range.
  - intros percent Hp. rewrite update_progressbar_bar.
    by rewrite setValue_out_of_range.
Qed.

(** C9 as stated fails: the progress bar of a new dialog reports -1, not
    0. *)
Lemma dialog_does_not_start_at_zero :
  ProgressBarDialog.value
    (ProgressBarDialog.progress_bar
       (ProgressBarDialog.__init__ "Loading..." 1))
  = -1
  /\ ProgressBarDialog.value
       (ProgressBarDialog.progress_bar
          (ProgressBarDialog.__init__ "Loading..." 1))
     <> 0.
Proof. split; [reflexivity | discriminate]. Qed.

Lemma update_progressbar_closed percent dialog :
  ProgressBarDialog.closed (ProgressBarDialog.update_progressbar percent dialog)
  = ProgressBarDialog.closed dialog || (percent =? 100).
Proof.
  unfold ProgressBarDialog.update_progressbar.
  destruct (percent =? 100); simpl; by rewrite ?orb_true_r, ?orb_false_r.
Qed.

(** ** create_html_report and create_report *)

Section Report.
Import MainWindow.

Variable gettext : string -> string -> string.
Variable start_analyses :
  list Chat -> DateTime * DateTime -> gmap string bool
  -> Body (PyObject * list Chat) false.
Variable html_export :
  string -> Metadata -> PyObject -> string -> string
  -> forall g : bool, Body PyObject g.

(** C7 (as amended): when the analysis has returned and the renderer raises
    a fault of class [Exception], [create_html_report] handles it: the line
    [print(type(e), e)] is the last thing it prints, and it returns [None]
    instead of raising. *)
Theorem create_html_report_catches_exception
    (self : MainWindow) (g : bool) (ret_stats : PyObject)
    (ret_parsed_chats : list Chat) (path : string) (e : PyExc) :
  outcome_of (start_analyses (parsed_chats self) (time_gap self) (features self))
  = Returned (ret_stats, ret_parsed_chats) ->
  report_path self = Returned path ->
  outcome_of (html_export path (metadata_of self ret_parsed_chats) ret_stats
                          (lang self) (theme_combobox self) g)
  = Raised e ->
  issubclass (exc_type e) Exception = true ->
  outcome_of (create_html_report start_analyses html_export self g)
  = Returned PyNone
  /\ printed (create_html_report start_analyses html_export self g)
     = printed (start_analyses (parsed_chats self) (time_gap self) (features self))
       ++ printed (html_export path (metadata_of self ret_parsed_chats) ret_stats
                               (lang self) (theme_combobox self) g)
       ++ [print_type_and_value e].
Proof.
  intros Hsa Hpath Hexp Hcls. unfold create_html_report.
  destruct (without_handle_spec (g := g)
              (start_analyses (parsed_chats self) (time_gap self) (features self)))
    as [Ho Hp].
  split.
  - rewrite outcome_of_and_then, Ho, Hsa, outcome_of_and_then, outcome_of_try_except.
    by rewrite Hpath, Hexp, Hcls.
  - rewrite printed_and_then, Ho, Hp, Hsa, printed_and_then, printed_try_except.
    rewrite outcome_of_try_except, Hpath, Hexp, Hcls. simpl.
    by rewrite app_nil_r.
Qed.

(** C10: without a data file, [create_report] changes nothing: no dialog, no
    worker, no connection, nothing handed to the pool. *)
Theorem create_report_without_data (self : MainWindow) :
  data_path self = None ->
  create_report gettext start_analyses html_export self = self.
Proof. intros Hnone. unfold create_report. by rewrite Hnone. Qed.

End Report.

(** C7, witness: the renderer raises [ValueError] after reporting 20. *)
Lemma create_html_report_catches_exception_witness :
  outcome_of (MainWindow.create_html_report analyses_ok export_fault
                                            window_reporting true)
  = Returned PyNone
  /\ printed (MainWindow.create_html_report analyses_ok export_fault
                                            window_reporting true)
     = ["<class 'ValueError'> X"].
Proof.
  apply (create_html_report_catches_exception analyses_ok export_fault
           window_reporting true (PyStr "stats")
           (MainWindow.parsed_chats window_reporting)
           "/home/user/index.html" fault_X);
    reflexivity.
Defined.

(** C7 as stated fails: [SystemExit] raised by the renderer is not handled;
    it leaves [create_html_report], and nothing is printed. *)
Lemma create_html_report_lets_sys_exit_through :
  outcome_of (MainWindow.create_html_report analyses_ok export_exit
                                            window_reporting true)
  = Raised system_exit
  /\ printed (MainWindow.create_html_report analyses_ok export_exit
                                            window_reporting true)
     = [].
Proof. split; vm_compute; reflexivity. Qed.

(** C10, witness: the window before a data file is selected. *)
Lemma create_report_without_data_witness :
  MainWindow.data_path window_no_data = None
  /\ MainWindow.create_report gettext_null analyses_ok export_ok window_no_data
     = window_no_data.
Proof.
  split; [reflexivity|].
  apply (create_report_without_data gettext_null analyses_ok export_ok
           window_no_data).
  reflexivity.
Defined.

(** ** Delivery of the events to the window *)

Section Delivery.
Import MainWindow.

Lemma Signal_int_small (n : Z) :
  -2147483648 <= n < 2147483648 -> Signal_int n = n.
Proof. intros Hn. unfold Signal_int. rewrite Z.mod_small; lia. Qed.

Lemma call_slot_keeps_open s ev st d :
  (forall p, ev = Progress p -> Signal_int p <> 100) ->
  open_at d st -> open_at d (call_slot s ev st).
Proof.
  intros Hev (dialog & Hd & Hopen).
  destruct s as [d0|], ev as [p| | |]; simpl;
    try (by exists dialog); [|destruct (report_path st); by exists dialog].
  destruct (decide (d0 = d)) as [->|Hne].
  - exists (ProgressBarDialog.update_progressbar (Signal_int p) dialog). split.
    + simpl. by rewrite lookup_alter_eq, Hd.
    + rewrite update_progressbar_closed, Hopen. simpl.
      apply Z.eqb_neq. by apply Hev.
  - exists dialog. split; [|done]. simpl. by rewrite lookup_alter_ne.
Qed.

Lemma deliver_keeps_open sig ev st d :
  (forall p, ev = Progress p -> Signal_int p <> 100) ->
  open_at d st -> open_at d (deliver sig ev st).
Proof.
  intros Hev. unfold deliver. generalize (connections st) as l.
  intros l. revert st. induction l as [|c l IH]; intros st Hopen; simpl; [done|].
  apply IH. unfold notify. destruct (decide _); [|done].
  by apply call_slot_keeps_open.
Qed.

Lemma process_events_keeps_open sig ems st d :
  Forall (fun em => forall p, event em = Progress p -> Signal_int p <> 100) ems ->
  open_at d st -> open_at d (process_events sig ems st).
Proof.
  unfold process_events. intros Hall. revert st.
  induction Hall as [|em ems Hem _ IH]; intros st Hopen; simpl; [done|].
  apply IH. destruct (emit_fault em); [done|]. by apply deliver_keeps_open.
Qed.

Lemma call_slot_dialogs s ev st :
  signal_of ev <> progress -> dialogs (call_slot s ev st) = dialogs st.
Proof.
  intros Hev. destruct s, ev; simpl; try done.
  by destruct (report_path st).
Qed.

Lemma deliver_dialogs sig ev st :
  signal_of ev <> progress -> dialogs (deliver sig ev st) = dialogs st.
Proof.
  intros Hev. unfold deliver. generalize (connections st) as l.
  intros l. revert st. induction l as [|c l IH]; intros st; simpl; [done|].
  rewrite IH. unfold notify. destruct (decide _); [|done].
  by apply call_slot_dialogs.
Qed.

Lemma run_emits_no_other_progress emit_raises worker w :
  100 ∉ Signal_int <$> progress_calls (body worker) ->
  Forall (fun em => forall p, event em = Progress p -> Signal_int p <> 100)
         (emitted (signals worker) w (run emit_raises worker w).2).
Proof.
  intros Hno.
  assert (Hps : Forall (fun em => forall p, event em = Progress p -> Signal_int p <> 100)
                       (progress_emission <$> progress_calls (body worker))).
  { apply Forall_fmap, Forall_forall. intros p Hp q [= <-] Heq.
    apply Hno. rewrite <- Heq. by apply list_elem_of_fmap_2. }
  run_cases emit_raises worker w; rewrite Hem; apply Forall_app; split; try done;
    repeat constructor; simpl; discriminate.
Qed.

(** C4: a percent of 0..100 received by [update_progressbar] is shown by the
    progress bar, whose range stays 0..100; an open dialog is closed by
    [update_progressbar] exactly when the percent received is 100;
    delivering an error or a finished event changes no dialog; so after all
    the events of a task none of whose progress events arrives as 100 (a
    task that faults before, in particular) have been delivered, finished
    included, a dialog that was open is still open. The percent received is
    the percent emitted, as the [Signal(int)] delivers it. *)
Theorem dialog_closes_only_at_100 :
  (forall percent dialog,
     ProgressBarDialog.minimum (ProgressBarDialog.progress_bar dialog) = 0 ->
     ProgressBarDialog.maximum (ProgressBarDialog.progress_bar dialog) = 100 ->
     0 <= percent <= 100 ->
     ProgressBarDialog.value
       (ProgressBarDialog.progress_bar
          (ProgressBarDialog.update_progressbar percent dialog))
     = percent
     /\ ProgressBarDialog.minimum
          (ProgressBarDialog.progress_bar
             (ProgressBarDialog.update_progressbar percent dialog))
        = 0
     /\ ProgressBarDialog.maximum
          (ProgressBarDialog.progress_bar
             (ProgressBarDialog.update_progressbar percent dialog))
        = 100)
  /\ (forall percent dialog,
        ProgressBarDialog.closed dialog = false ->
        ProgressBarDialog.closed
          (ProgressBarDialog.update_progressbar percent dialog) = true
        <-> percent = 100)
  /\ (forall sig ev st,
        signal_of ev = error \/ signal_of ev = finished ->
        dialogs (deliver sig ev st) = dialogs st)
  /\ (forall emit_raises worker w st d,
        100 ∉ Signal_int <$> progress_calls (body worker) ->
        open_at d st ->
        open_at d
          (process_events (signals worker)
             (emitted (signals worker) w (run emit_raises worker w).2) st))
  /\ (forall emit_raises worker w st d,
        Forall (fun percent => 0 <= percent <= 100) (progress_calls (body worker)) ->
        100 ∉ progress_calls (body worker) ->
        open_at d st ->
        open_at d
          (process_events (signals worker)
             (emitted (signals worker) w (run emit_raises worker w).2) st)).
Proof.
  assert (Hopen4 : forall emit_raises worker w st d,
        100 ∉ Signal_int <$> progress_calls (body worker) ->
        open_at d st ->
        open_at d
          (process_events (signals worker)
             (emitted (signals worker) w (run emit_raises worker w).2) st)).
  { intros emit_raises worker w st d Hno Hopen.
    apply process_events_keeps_open; [|done].
    by apply run_emits_no_other_progress. }
  split; [|split; [|split; [|split; [exact Hopen4|]]]].
  - intros percent dialog Hmin Hmax Hp. rewrite update_progressbar_bar.
    destruct (setValue_range percent (ProgressBarDialog.progress_bar dialog))
      as [-> ->].
    split; [|done]. apply setValue_in_range. lia.
  - intros percent dialog Hopen.
    rewrite update_progressbar_closed, Hopen. simpl. apply Z.eqb_eq.
  - intros sig ev st Hev. apply deliver_dialogs. destruct Hev as [-> | ->]; done.
  - intros emit_raises worker w st d Hrange Hno. apply Hopen4.
    intros (p & Heq & Hin)%list_elem_of_fmap. apply Hno.
    rewrite Forall_forall in Hrange. specialize (Hrange p Hin).
    rewrite Signal_int_small in Heq by lia. by subst.
Qed.

End Delivery.

(** ** The report is opened when the task has finished *)

Section ReportOpened.
Import MainWindow.

Lemma notify_unconnected sig ev l st :
  Forall (fun c => sender c <> sig) l -> foldl (notify sig ev) st l = st.
Proof.
  intros Hall. revert st. induction Hall as [|c l Hc _ IH]; intros st; simpl; [done|].
  rewrite IH. unfold notify.
  destruct (decide (sender c = sig /\ signal c = signal_of ev)) as [[Heq _]|_];
    [by destruct Hc | done].
Qed.

Lemma process_events_cons sig em ems st :
  process_events sig (em :: ems) st
  = process_events sig ems
      match emit_fault em with
      | None => deliver sig (event em) st
      | Some _ => st
      end.
Proof. done. Qed.

Lemma process_events_nil sig st : process_events sig [] st = st.
Proof. done. Qed.

Lemma process_events_app sig ems1 ems2 st :
  process_events sig (ems1 ++ ems2) st
  = process_events sig ems2 (process_events sig ems1 st).
Proof. unfold process_events. apply foldl_app. Qed.

(** Delivery in a window whose only connections to [sig] are the two that
    [create_report] makes. *)
Lemma deliver_report_task sig d old st ev :
  connections st
  = old ++ [ {| sender := sig; signal := progress; slot := update_progressbar d |};
             {| sender := sig; signal := finished; slot := open_report |} ] ->
  Forall (fun c => sender c <> sig) old ->
  deliver sig ev st
  = match ev with
    | Progress percent =>
        set_dialogs
          (alter (ProgressBarDialog.update_progressbar (Signal_int percent)) d
             (dialogs st))
          st
    | Finished => call_slot open_report Finished st
    | Result _ | Error _ => st
    end.
Proof.
  intros Hconn Hold. unfold deliver.
  rewrite Hconn, foldl_app, (notify_unconnected _ _ _ _ Hold). simpl.
  unfold notify; simpl.
  destruct ev; simpl;
    repeat match goal with
      | |- context [decide ?P] =>
          destruct (decide P) as [[_ ?]|?];
          try discriminate;
          try match goal with H : ¬ _ |- _ => by destruct H end
      end;
    done.
Qed.

Lemma process_progress_events sig d old ps st :
  connections st
  = old ++ [ {| sender := sig; signal := progress; slot := update_progressbar d |};
             {| sender := sig; signal := finished; slot := open_report |} ] ->
  Forall (fun c => sender c <> sig) old ->
  connections (process_events sig (progress_emission <$> ps) st) = connections st
  /\ report_info (process_events sig (progress_emission <$> ps) st) = report_info st
  /\ webbrowser (process_events sig (progress_emission <$> ps) st) = webbrowser st.
Proof.
  intros Hconn Hold. revert st Hconn.
  induction ps as [|p ps IH]; intros st Hconn; [done|].
  change (process_events sig (progress_emission <$> p :: ps) st)
    with (process_events sig (progress_emission <$> ps) (deliver sig (Progress p) st)).
  rewrite (deliver_report_task sig d old st (Progress p) Hconn Hold).
  apply (IH (set_dialogs _ st)). exact Hconn.
Qed.

(** Delivering events other than [finished] in such a window opens
    nothing and leaves the connections and the report's path alone. *)
Lemma process_events_opens_nothing sig d old ems st :
  connections st
  = old ++ [ {| sender := sig; signal := progress; slot := update_progressbar d |};
             {| sender := sig; signal := finished; slot := open_report |} ] ->
  Forall (fun c => sender c <> sig) old ->
  Finished ∉ event <$> ems ->
  connections (process_events sig ems st) = connections st
  /\ report_info (process_events sig ems st) = report_info st
  /\ webbrowser (process_events sig ems st) = webbrowser st.
Proof.
  intros Hconn Hold. revert st Hconn.
  induction ems as [|em ems IH]; intros st Hconn Hno; [done|].
  csimpl in Hno. apply not_elem_of_cons in Hno as [Hem Hno].
  rewrite process_events_cons.
  destruct (emit_fault em); [by apply IH|].
  rewrite (deliver_report_task sig d old st (event em) Hconn Hold).
  destruct (event em) as [p| | |]; try (by apply IH); [|done].
  apply (IH (set_dialogs _ st)); [exact Hconn | exact Hno].
Qed.

Lemma filter_unconnected sig s (l : list Connection) :
  Forall (fun c => sender c <> sig) l ->
  filter (fun c => sender c = sig /\ signal c = s) l = [].
Proof.
  intros Hall. induction Hall as [|c l Hc _ IH]; [done|].
  rewrite filter_cons. destruct (decide _) as [[Heq _]|_]; [by destruct Hc | exact IH].
Qed.

Lemma progress_events_not_finished ps (rest : list Emission) :
  Finished ∉ event <$> rest ->
  Finished ∉ event <$> ((progress_emission <$> ps) ++ rest).
Proof.
  intros Hrest. rewrite events_of_progress.
  intros [Hin|Hin]%elem_of_app; [|by apply Hrest].
  by apply list_elem_of_fmap in Hin as (p & Heq & _).
Qed.

Variable gettext : string -> string -> string.
Variable start_analyses :
  list Chat -> DateTime * DateTime -> gmap string bool
  -> Body (PyObject * list Chat) false.
Variable html_export :
  string -> Metadata -> PyObject -> string -> string
  -> forall g : bool, Body PyObject g.
Variable emit_raises : Event -> option PyExc.

(** C8: [create_report] in a window with a data file starts a task and
    opens nothing itself; the one slot it connects to the [finished] signal
    of the task is the one that opens the report. Whatever the task does (it
    may end with a result or with an error event), the finished event is the
    last of its events and occurs once; delivering any events that come
    before it opens nothing; and once all the events are delivered the slot
    has opened the report [index.html] next to the data file, and nothing
    else. The new [WorkerSignals] object is fresh: no older connection is to
    it. The finished event is delivered: emitting it does not raise. *)
Theorem report_opened_when_finished (self : MainWindow) (path : Path.Path)
    (w : World) :
  data_path self = Some path ->
  Forall (fun c => sender c <> S (next_object self)) (connections self) ->
  emit_raises Finished = None ->
  exists worker before,
    last (threadpool (create_report gettext start_analyses html_export self))
    = Some worker
    /\ webbrowser (create_report gettext start_analyses html_export self)
       = webbrowser self
    /\ filter (fun c => sender c = signals worker /\ signal c = finished)
         (connections (create_report gettext start_analyses html_export self))
       = [ {| sender := signals worker; signal := finished; slot := open_report |} ]
    /\ emitted (signals worker) w (run emit_raises worker w).2
       = before ++ [emission emit_raises Finished]
    /\ (Finished ∉ event <$> before)
    /\ (forall delivered,
          delivered `prefix_of` before ->
          webbrowser
            (process_events (signals worker) delivered
               (create_report gettext start_analyses html_export self))
          = webbrowser self)
    /\ webbrowser
         (process_events (signals worker)
            (emitted (signals worker) w (run emit_raises worker w).2)
            (create_report gettext start_analyses html_export self))
       = webbrowser self
         ++ [Path.str (Path.joinpath (Path.parent path) "index.html")].
Proof.
  intros Hdata Hfresh Hfin. unfold create_report. rewrite Hdata.
  set (url := Path.str (Path.joinpath (Path.parent path) "index.html")).
  set (self1 := set_report_info (<["path" := url]> ∅) self).
  set (worker := Worker.__init__ (S (next_object self1))
                   (create_html_report_method start_analyses html_export self1)
                   [] true).
  set (st := start_task _ worker _ self1).
  assert (Hconn : connections st
    = connections self
      ++ [ {| sender := signals worker; signal := progress;
              slot := update_progressbar (next_object self1) |};
           {| sender := signals worker; signal := finished; slot := open_report |} ])
    by done.
  assert (Hold : Forall (fun c => sender c <> signals worker) (connections self))
    by exact Hfresh.
  assert (Hdecomp : exists before,
            emitted (signals worker) w (run emit_raises worker w).2
            = before ++ [emission emit_raises Finished]
            /\ Finished ∉ event <$> before).
  { run_cases emit_raises worker w; rewrite Hem.
    - exists ((progress_emission <$> progress_calls (body worker))
                ++ [emission emit_raises (Result v)]).
      split; [by rewrite <- app_assoc|].
      apply progress_events_not_finished. by intros [=]%list_elem_of_singleton.
    - exists ((progress_emission <$> progress_calls (body worker))
                ++ [emission emit_raises (Error (exc_type e, e, format_exc e))]).
      split; [by rewrite <- app_assoc|].
      apply progress_events_not_finished. by intros [=]%list_elem_of_singleton.
    - exists (progress_emission <$> progress_calls (body worker)).
      split; [done|].
      rewrite <- (app_nil_r (_ <$> progress_calls _)).
      apply progress_events_not_finished. apply not_elem_of_nil. }
  destruct Hdecomp as (before & Hem & Hno).
  exists worker, before.
  split; [by simpl; rewrite last_snoc|].
  split; [done|].
  split.
  { rewrite Hconn, filter_app, (filter_unconnected _ _ _ Hold). simpl.
    rewrite !filter_cons, filter_nil.
    destruct (decide _) as [[_ ?]|_]; [discriminate|].
    destruct (decide _) as [_|Hn]; [done | by destruct Hn]. }
  split; [exact Hem|]. split; [exact Hno|]. split.
  - intros delivered [rest ->].
    apply (process_events_opens_nothing _ _ _ delivered st Hconn Hold).
    intros Hin. apply Hno. rewrite fmap_app. apply elem_of_app. by left.
  - rewrite Hem, process_events_app, process_events_cons, process_events_nil.
    unfold emission. cbn [emit_fault event]. rewrite Hfin.
    destruct (process_events_opens_nothing _ _ _ before st Hconn Hold Hno)
      as (Hc & Hi & Hw).
    set (st1 := process_events (signals worker) before st) in *.
    assert (Hconn1 : connections st1 = connections self ++ _)
      by (by rewrite Hc, Hconn).
    rewrite (deliver_report_task _ _ _ _ Finished Hconn1 Hold). simpl.
    unfold report_path. rewrite Hi. simpl.
    rewrite lookup_insert_eq. simpl. by rewrite Hw.
Qed.

End ReportOpened.

(** C4, witness: the report task whose analysis faults. Its dialog, object 2,
    is still open once the error and the finished events are delivered. *)
Lemma dialog_closes_only_at_100_witness :
  match last (MainWindow.threadpool window_started) with
  | Some worker =>
      List.filter is_error
        (event <$> emitted (signals worker) world0 (run emit_ok worker world0).2)
      <> []
      /\ MainWindow.open_at 2
           (MainWindow.process_events (signals worker)
              (emitted (signals worker) world0 (run emit_ok worker world0).2)
              window_started)
  | None => False
  end.
Proof.
  destruct dialog_closes_only_at_100 as (_ & _ & _ & Hopen & _).
  cbn [last window_started MainWindow.create_report MainWindow.data_path window0
       MainWindow.threadpool MainWindow.start_task MainWindow.set_report_info
       app].
  split; [vm_compute; discriminate|].
  apply Hopen.
  - vm_compute. apply not_elem_of_nil.
  - eexists. split; [vm_compute; reflexivity | reflexivity].
Defined.

(** C8, witness: the report task of [window0], with an analysis and a
    renderer that succeed. *)
Lemma report_opened_when_finished_witness :
  exists worker before,
    last (MainWindow.threadpool
            (MainWindow.create_report gettext_null analyses_ok export_ok window0))
    = Some worker
    /\ MainWindow.webbrowser
         (MainWindow.create_report gettext_null analyses_ok export_ok window0)
       = MainWindow.webbrowser window0
    /\ filter (fun c => MainWindow.sender c = signals worker
                        /\ MainWindow.signal c = finished)
         (MainWindow.connections
            (MainWindow.create_report gettext_null analyses_ok export_ok window0))
       = [ {| MainWindow.sender := signals worker; MainWindow.signal := finished;
              MainWindow.slot := MainWindow.open_report |} ]
    /\ emitted (signals worker) world0 (run emit_ok worker world0).2
       = before ++ [emission emit_ok Finished]
    /\ (Finished ∉ event <$> before)
    /\ (forall delivered,
          delivered `prefix_of` before ->
          MainWindow.webbrowser
            (MainWindow.process_events (signals worker) delivered
               (MainWindow.create_report gettext_null analyses_ok export_ok window0))
          = MainWindow.webbrowser window0)
    /\ MainWindow.webbrowser
         (MainWindow.process_events (signals worker)
            (emitted (signals worker) world0 (run emit_ok worker world0).2)
            (MainWindow.create_report gettext_null analyses_ok export_ok window0))
       = MainWindow.webbrowser window0 ++ ["/home/user/index.html"].
Proof.
  apply (report_opened_when_finished gettext_null analyses_ok export_ok emit_ok
           window0
           {| Path.anchor := "/"; Path.parts := ["home"; "user"; "result.json"] |}
           world0).
  - reflexivity.
  - constructor.
  - reflexivity.
Defined.

(** The same when the task ends with an error event: the analysis faults,
    the error event is emitted, and the report is opened all the same. *)
Example report_opened_after_error :
  match last (MainWindow.threadpool window_started) with
  | Some worker =>
      event <$> emitted (signals worker) world0 (run emit_ok worker world0).2
      = [Error (ValueError, fault_X, format_exc fault_X); Finished]
      /\ MainWindow.webbrowser
           (MainWindow.process_events (signals worker)
              (emitted (signals worker) world0 (run emit_ok worker world0).2)
              window_started)
         = ["/home/user/index.html"]
  | None => False
  end.
Proof. vm_compute. split; reflexivity. Qed.

(** With a renderer that succeeds, the task ends with a result event, the
    dialog closes at 100 percent and the report is opened. *)
Example report_opened_after_result :
  let st := MainWindow.create_report gettext_null analyses_ok export_ok window0 in
  match last (MainWindow.threadpool st) with
  | Some worker =>
      event <$> emitted (signals worker) world0 (run emit_ok worker world0).2
      = [Progress 50; Progress 100; Result PyNone; Finished]
      /\ ProgressBarDialog.closed
           <$> (MainWindow.dialogs
                  (MainWindow.process_events (signals worker)
                     (emitted (signals worker) world0 (run emit_ok worker world0).2)
                     st) !! 2%nat)
         = Some true
      /\ MainWindow.webbrowser
           (MainWindow.process_events (signals worker)
              (emitted (signals worker) world0 (run emit_ok worker world0).2)
              st)
         = ["/home/user/index.html"]
  | None => False
  end.
Proof. vm_compute. repeat split; reflexivity. Qed.

(** A percent that no 32-bit [int] holds arrives wrapped: the renderer
    reports 2^32 + 100, never 100, and the dialog closes all the same, its
    bar showing 100. *)
Example dialog_closed_by_wrapped_percent :
  let st :=
    MainWindow.create_report gettext_null analyses_ok Examples2.export_wrapped
      window0 in
  match last (MainWindow.threadpool st) with
  | Some worker =>
      progress_calls (body worker) = [4294967396]
      /\ Signal_int 4294967396 = 100
      /\ (fun dialog =>
            (ProgressBarDialog.closed dialog,
             ProgressBarDialog.value (ProgressBarDialog.progress_bar dialog)))
           <$> (MainWindow.dialogs
                  (MainWindow.process_events (signals worker)
                     (emitted (signals worker) world0 (run emit_ok worker world0).2)
                     st) !! 2%nat)
         = Some (true, 100)
  | None => False
  end.
Proof. vm_compute. repeat split; reflexivity. Qed.

(** * Further properties *)

(** ** Worker.run: the other ways it ends, and what it leaves alone *)

Lemma filter_terminal_app ps rest :
  List.filter is_terminal ((Progress <$> ps) ++ rest) = List.filter is_terminal rest.
Proof. induction ps as [|p ps IH]; csimpl; [done | exact IH]. Qed.

Section WorkerRunMore.

Variable emit_raises : Event -> option PyExc.

(** X1: when the task's function returns [v], [run] emits exactly one
    result-or-error event, the result event carrying [v]; it writes nothing
    to stderr; and it ends as the calls of [emit] end. In particular a fault
    raised by emitting the result is not turned into an error event. *)
Theorem run_result_event (self : Worker) (w : World) (v : PyObject) :
  outcome_of (body self) = Returned v ->
  List.filter is_terminal
    (event <$> emitted (signals self) w (run emit_raises self w).2)
  = [Result v]
  /\ stderr (run emit_raises self w).2 = stderr w
  /\ (run emit_raises self w).1
     = after_finally emit_raises (after_emit emit_raises (Result v)).
Proof.
  intros Hv. destruct (run_returned emit_raises self w v Hv) as [Hres Hext].
  pose proof (extends_emitted _ _ _ _ _ _ Hext) as Hem.
  destruct Hext as (_ & _ & Herr & _).
  rewrite Hem, events_of_progress, filter_terminal_app.
  by rewrite Herr, app_nil_r.
Qed.

(** X2: when the task's function raises a fault whose class does not derive
    from [Exception], [run] emits the progress events and the finished event
    and nothing else, writes nothing to stderr, and lets the fault through
    (unless emitting finished raises, which then takes its place). *)
Theorem run_unhandled_fault (self : Worker) (w : World) (e : PyExc) :
  outcome_of (body self) = Raised e ->
  issubclass (exc_type e) Exception = false ->
  event <$> emitted (signals self) w (run emit_raises self w).2
  = (Progress <$> progress_calls (body self)) ++ [Finished]
  /\ stderr (run emit_raises self w).2 = stderr w
  /\ (run emit_raises self w).1 = after_finally emit_raises (Raised e).
Proof.
  intros He Hcls. destruct (run_uncaught emit_raises self w e He Hcls) as [Hres Hext].
  pose proof (extends_emitted _ _ _ _ _ _ Hext) as Hem.
  destruct Hext as (_ & _ & Herr & _).
  rewrite Hem, events_of_progress. by rewrite Herr, app_nil_r.
Qed.

Lemma run_other_channels (self : Worker) (w : World) (j : nat) :
  j <> signals self ->
  channels (run emit_raises self w).2 !! j = channels w !! j.
Proof.
  intros Hj. run_cases emit_raises self w; destruct Hext as (_ & Hfr & _);
    by apply Hfr.
Qed.

(** X3: whatever the task does, [run] only adds to the channel of its own
    signals: the channels of the other [WorkerSignals] objects are unchanged,
    the calls of [emit] already made on its own stay as they were, stdout
    gets the lines the function prints and nothing else, and stderr gets at
    most one traceback. *)
Theorem run_frame (self : Worker) (w : World) :
  (forall j : nat, j <> signals self ->
     channels (run emit_raises self w).2 !! j = channels w !! j)
  /\ channel (signals self) w `prefix_of` channel (signals self) (run emit_raises self w).2
  /\ stdout (run emit_raises self w).2 = stdout w ++ printed (body self)
  /\ exists err, stderr (run emit_raises self w).2 = stderr w ++ err
                 /\ (length err <= 1)%nat.
Proof.
  run_cases emit_raises self w; destruct Hext as (Hch & Hfr & Hse & Hso);
    (split; [exact Hfr|]); (split; [rewrite Hch; by apply prefix_app_r|]);
    (split; [exact Hso|]); eexists; (split; [exact Hse|]); simpl; lia.
Qed.

Lemma run_emitted_any_world (self : Worker) (u w : World) :
  emitted (signals self) u (run emit_raises self u).2
  = emitted (signals self) w (run emit_raises self w).2.
Proof.
  destruct (outcome_of (body self)) as [v|e] eqn:Ho;
    [|destruct (issubclass (exc_type e) Exception) eqn:Hc].
  - by rewrite
      (extends_emitted _ _ _ _ _ _ (proj2 (run_returned emit_raises self u v Ho))),
      (extends_emitted _ _ _ _ _ _ (proj2 (run_returned emit_raises self w v Ho))).
  - by rewrite
      (extends_emitted _ _ _ _ _ _ (proj2 (run_caught emit_raises self u e Ho Hc))),
      (extends_emitted _ _ _ _ _ _ (proj2 (run_caught emit_raises self w e Ho Hc))).
  - by rewrite
      (extends_emitted _ _ _ _ _ _ (proj2 (run_uncaught emit_raises self u e Ho Hc))),
      (extends_emitted _ _ _ _ _ _ (proj2 (run_uncaught emit_raises self w e Ho Hc))).
Qed.

(** X4: two tasks with distinct [WorkerSignals] objects, run one after the
    other in either order, leave on each channel the events of its own task
    only. *)
Theorem run_two_tasks (first second : Worker) (w : World) :
  signals first <> signals second ->
  let w1 := (run emit_raises first w).2 in
  let w2 := (run emit_raises second w1).2 in
  channel (signals first) w2 = channel (signals first) w1
  /\ emitted (signals second) w1 w2
     = emitted (signals second) w (run emit_raises second w).2.
Proof.
  intros Hne w1 w2. subst w2. split.
  - unfold channel. rewrite !lookup_total_alt.
    f_equal. exact (run_other_channels second w1 (signals first) Hne).
  - apply run_emitted_any_world.
Qed.

End WorkerRunMore.

(** X1, witness: the task "return 42 after emitting progress 0, 50, 100". *)
Lemma run_result_event_witness :
  List.filter is_terminal
    (event <$> emitted (signals worker_42) world0 (run emit_ok worker_42 world0).2)
  = [Result (PyInt 42)]
  /\ stderr (run emit_ok worker_42 world0).2 = stderr world0
  /\ (run emit_ok worker_42 world0).1
     = after_finally emit_ok (after_emit emit_ok (Result (PyInt 42))).
Proof. apply (run_result_event emit_ok worker_42 world0 (PyInt 42)). reflexivity. Defined.

(** X2, witness: the task that calls [sys.exit(1)] after progress 20. *)
Lemma run_unhandled_fault_witness :
  event <$> emitted (signals worker_exit) world0 (run emit_ok worker_exit world0).2
  = (Progress <$> progress_calls (body worker_exit)) ++ [Finished]
  /\ stderr (run emit_ok worker_exit world0).2 = stderr world0
  /\ (run emit_ok worker_exit world0).1 = after_finally emit_ok (Raised system_exit).
Proof.
  apply (run_unhandled_fault emit_ok worker_exit world0 system_exit); reflexivity.
Defined.

Import Examples2.

(** X4, witness: the task that faults and the task that returns 42. *)
Lemma run_two_tasks_witness :
  channel (signals worker_X)
          (run emit_ok worker_42_other (run emit_ok worker_X world0).2).2
  = channel (signals worker_X) (run emit_ok worker_X world0).2
  /\ emitted (signals worker_42_other) (run emit_ok worker_X world0).2
             (run emit_ok worker_42_other (run emit_ok worker_X world0).2).2
     = emitted (signals worker_42_other) world0 (run emit_ok worker_42_other world0).2.
Proof. apply (run_two_tasks emit_ok worker_X worker_42_other world0). discriminate. Defined.

(** ** ProgressBarDialog: a sequence of progress events *)

Lemma updates_close (ps : list Z)
    (dialog : ProgressBarDialog.ProgressBarDialog) :
  (ProgressBarDialog.closed
     (foldl (fun d p => ProgressBarDialog.update_progressbar p d) dialog ps) = true
   <-> ProgressBarDialog.closed dialog = true \/ 100 ∈ ps)
  /\ (100 ∈ ps ->
      ProgressBarDialog.modal
        (foldl (fun d p => ProgressBarDialog.update_progressbar p d) dialog ps)
      = false).
Proof.
  induction ps as [|p ps [IHc IHm]] using rev_ind; simpl.
  - split; [|by intros ?%elem_of_nil]. split; [by left|].
    intros [H|H%elem_of_nil]; done.
  - rewrite !foldl_snoc. split.
    + rewrite update_progressbar_closed, orb_true_iff, IHc, elem_of_app,
        list_elem_of_singleton, Z.eqb_eq. intuition congruence.
    + intros [Hin|Heq%list_elem_of_singleton]%elem_of_app.
      * unfold ProgressBarDialog.update_progressbar.
        destruct (p =? 100); simpl; [done|]. by apply IHm.
      * subst p. unfold ProgressBarDialog.update_progressbar. by simpl.
Qed.

(** X5: after the dialog has received the percents [ps] in order, it is
    closed exactly when it was closed before or one of them was 100 (nothing
    reopens it); and when one of them was 100 its modal loop has ended. *)
Theorem dialog_after_updates (ps : list Z)
    (dialog : ProgressBarDialog.ProgressBarDialog) :
  (ProgressBarDialog.closed
     (foldl (fun d p => ProgressBarDialog.update_progressbar p d) dialog ps) = true
   <-> ProgressBarDialog.closed dialog = true \/ 100 ∈ ps)
  /\ (100 ∈ ps ->
      ProgressBarDialog.modal
        (foldl (fun d p => ProgressBarDialog.update_progressbar p d) dialog ps)
      = false).
Proof. apply updates_close. Qed.

(** ** create_html_report: the other ways it ends *)

Lemma progress_calls_and_then {A B g} (b : Body A g) (f : A -> Body B g) :
  progress_calls (and_then b f)
  = progress_calls b ++ match outcome_of b with
                        | Returned a => progress_calls (f a)
                        | Raised _ => []
                        end.
Proof. induction b; simpl; auto. by f_equal. Qed.

Lemma progress_calls_try_except {A g} (b : Body A g) cls
    (handler : PyExc -> Body A g) :
  progress_calls (try_except b cls handler)
  = progress_calls b
    ++ match outcome_of b with
       | Returned _ => []
       | Raised e =>
           if issubclass (exc_type e) cls then progress_calls (handler e) else []
       end.
Proof.
  induction b; simpl; auto.
  - by destruct (issubclass _ _).
  - by f_equal.
Qed.

Lemma lift_body_progress_calls {A g g0} (b : Body A g0) :
  (if g0 as g1 return (if g1 then unit else Body A g) -> Prop
   then fun _ => True
   else fun r => progress_calls r = [])
    (@lift_body A g g0 b).
Proof.
  induction b as [g0 a|g0 e|g0 line k IH|p k IH]; simpl.
  - by destruct g0.
  - by destruct g0.
  - destruct g0; [done|]. exact IH.
  - done.
Qed.

Lemma progress_calls_without_handle_lift {A g} (b : Body A false) :
  progress_calls (@without_handle A g b) = [].
Proof. exact (lift_body_progress_calls b). Qed.

Lemma report_path_fault (self : MainWindow.MainWindow) (e : PyExc) :
  MainWindow.report_path self = Raised e ->
  issubclass (exc_type e) Exception = true.
Proof.
  unfold MainWindow.report_path.
  destruct (MainWindow.report_info self) as [info|];
    [destruct (info !! "path")|]; intros [= <-]; reflexivity.
Qed.

Section ReportMore.
Import MainWindow.

Variable start_analyses :
  list Chat -> DateTime * DateTime -> gmap string bool
  -> Body (PyObject * list Chat) false.
Variable html_export :
  string -> Metadata -> PyObject -> string -> string
  -> forall g : bool, Body PyObject g.

(** X6: a fault of the analysis, of whatever class, is not handled by
    [create_html_report]: it leaves the function as it was raised, the
    renderer is not called (no progress is reported) and nothing is printed
    beyond what the analysis printed. *)
Theorem create_html_report_analysis_fault (self : MainWindow) (g : bool)
    (e : PyExc) :
  outcome_of (start_analyses (parsed_chats self) (time_gap self) (features self))
  = Raised e ->
  outcome_of (create_html_report start_analyses html_export self g) = Raised e
  /\ progress_calls (create_html_report start_analyses html_export self g) = []
  /\ printed (create_html_report start_analyses html_export self g)
     = printed (start_analyses (parsed_chats self) (time_gap self) (features self)).
Proof.
  intros Hsa. unfold create_html_report.
  destruct (without_handle_spec (g := g)
              (start_analyses (parsed_chats self) (time_gap self) (features self)))
    as [Ho Hp].
  rewrite outcome_of_and_then, progress_calls_and_then, printed_and_then.
  rewrite Ho, Hp, Hsa, progress_calls_without_handle_lift.
  by rewrite !app_nil_r.
Qed.

(** X7: when the analysis and the renderer return, [create_html_report]
    returns [None] whatever the renderer returned; the progress it reports is
    the renderer's, and it prints nothing of its own. *)
Theorem create_html_report_returns_None (self : MainWindow) (g : bool)
    (ret_stats : PyObject) (ret_parsed_chats : list Chat) (path : string)
    (v : PyObject) :
  outcome_of (start_analyses (parsed_chats self) (time_gap self) (features self))
  = Returned (ret_stats, ret_parsed_chats) ->
  report_path self = Returned path ->
  outcome_of (html_export path (metadata_of self ret_parsed_chats) ret_stats
                          (lang self) (theme_combobox self) g)
  = Returned v ->
  outcome_of (create_html_report start_analyses html_export self g)
  = Returned PyNone
  /\ progress_calls (create_html_report start_analyses html_export self g)
     = progress_calls (html_export path (metadata_of self ret_parsed_chats)
                                   ret_stats (lang self) (theme_combobox self) g)
  /\ printed (create_html_report start_analyses html_export self g)
     = printed (start_analyses (parsed_chats self) (time_gap self) (features self))
       ++ printed (html_export path (metadata_of self ret_parsed_chats) ret_stats
                               (lang self) (theme_combobox self) g).
Proof.
  intros Hsa Hpath Hexp. unfold create_html_report.
  destruct (without_handle_spec (g := g)
              (start_analyses (parsed_chats self) (time_gap self) (features self)))
    as [Ho Hp].
  rewrite outcome_of_and_then, progress_calls_and_then, printed_and_then.
  rewrite Ho, Hp, Hsa, progress_calls_without_handle_lift.
  rewrite outcome_of_and_then, progress_calls_and_then, printed_and_then.
  rewrite outcome_of_try_except, progress_calls_try_except, printed_try_except.
  rewrite Hpath, Hexp. simpl. by rewrite !app_nil_r.
Qed.

(** X8: in a window where no report path is stored (the attribute
    [report_info] or its key is missing), the fault of the lookup is handled
    like a fault of the renderer: it is printed, the renderer is not called,
    and [create_html_report] returns [None]. *)
Theorem create_html_report_without_report_info (self : MainWindow) (g : bool)
    (ret_stats : PyObject) (ret_parsed_chats : list Chat) (e : PyExc) :
  outcome_of (start_analyses (parsed_chats self) (time_gap self) (features self))
  = Returned (ret_stats, ret_parsed_chats) ->
  report_path self = Raised e ->
  outcome_of (create_html_report start_analyses html_export self g)
  = Returned PyNone
  /\ progress_calls (create_html_report start_analyses html_export self g) = []
  /\ printed (create_html_report start_analyses html_export self g)
     = printed (start_analyses (parsed_chats self) (time_gap self) (features self))
       ++ [print_type_and_value e].
Proof.
  intros Hsa Hpath. pose proof (report_path_fault self e Hpath) as Hcls.
  unfold create_html_report.
  destruct (without_handle_spec (g := g)
              (start_analyses (parsed_chats self) (time_gap self) (features self)))
    as [Ho Hp].
  rewrite outcome_of_and_then, progress_calls_and_then, printed_and_then.
  rewrite Ho, Hp, Hsa, progress_calls_without_handle_lift.
  rewrite outcome_of_and_then, progress_calls_and_then, printed_and_then.
  rewrite outcome_of_try_except, progress_calls_try_except, printed_try_except.
  rewrite Hpath. simpl. rewrite Hcls. simpl. by rewrite ?app_nil_r.
Qed.

Lemma elem_of_parsed_chats (self : MainWindow) (chat : Chat) :
  chat ∈ parsed_chats self
  <-> chat ∈ chats self
      /\ exists checkbox, checkbox ∈ chat_checkboxes self
                          /\ chat_isChecked checkbox = true
                          /\ chat_id checkbox = id chat.
Proof.
  unfold parsed_chats, chat_ids.
  rewrite list_elem_of_filter, elem_of_list_to_set, list_elem_of_fmap.
  split.
  - intros [(checkbox & Hid & [Hc Hin]%list_elem_of_filter) Hchat].
    split; [done|]. by exists checkbox.
  - intros [Hchat (checkbox & Hin & Hc & Hid)]. split; [|done].
    exists checkbox. split; [done|]. by apply list_elem_of_filter.
Qed.

(** X9: the chats sent to the analysis are the chats of the window that have
    a checked checkbox with their id, in the order of [chats]. *)
Theorem parsed_chats_spec (self : MainWindow) :
  (forall chat : Chat,
     chat ∈ parsed_chats self
     <-> chat ∈ chats self
         /\ exists checkbox, checkbox ∈ chat_checkboxes self
                             /\ chat_isChecked checkbox = true
                             /\ chat_id checkbox = id chat)
  /\ parsed_chats self `sublist_of` chats self.
Proof. split; [apply elem_of_parsed_chats | apply sublist_filter]. Qed.

(** X10: the features sent to the analysis have one entry for each name of a
    feature checkbox and no other; when the names are distinct, the entry of
    a checkbox is whether it is checked. *)
Theorem features_spec (self : MainWindow) :
  (forall k : string,
     is_Some (features self !! k)
     <-> k ∈ feature_name <$> feature_checkboxes self)
  /\ (NoDup (feature_name <$> feature_checkboxes self) ->
      forall checkbox, checkbox ∈ feature_checkboxes self ->
        features self !! feature_name checkbox = Some (feature_isChecked checkbox)).
Proof.
  unfold features. generalize (feature_checkboxes self) as boxes. intros boxes.
  induction boxes as [|box boxes [IHk IHv]] using rev_ind.
  - split.
    + intros k. simpl. rewrite lookup_empty. split; [by intros [? ?]|].
      by intros ?%elem_of_nil.
    + by intros _ checkbox ?%elem_of_nil.
  - rewrite foldl_snoc, fmap_app. simpl. split.
    + intros k. rewrite lookup_insert_is_Some', IHk, elem_of_app,
        list_elem_of_singleton.
      intuition congruence.
    + intros (Hnd & Hnot & _)%NoDup_app checkbox
        [Hin|Heq%list_elem_of_singleton]%elem_of_app.
      * rewrite lookup_insert_ne; [by apply IHv|].
        intros Heq. apply (Hnot (feature_name checkbox)).
        -- by apply list_elem_of_fmap_2.
        -- rewrite Heq. by apply list_elem_of_singleton.
      * subst checkbox. by rewrite lookup_insert_eq.
Qed.

End ReportMore.

(** X6, witness: the analysis raises [ValueError]. *)
Lemma create_html_report_analysis_fault_witness :
  outcome_of (MainWindow.create_html_report analyses_fault export_ok
                                            window_reporting true)
  = Raised fault_X
  /\ progress_calls (MainWindow.create_html_report analyses_fault export_ok
                                                   window_reporting true) = []
  /\ printed (MainWindow.create_html_report analyses_fault export_ok
                                            window_reporting true) = [].
Proof.
  apply (create_html_report_analysis_fault analyses_fault export_ok
           window_reporting true fault_X).
  reflexivity.
Defined.

(** X7, witness: the renderer reports 50 and 100 and returns. *)
Lemma create_html_report_returns_None_witness :
  outcome_of (MainWindow.create_html_report analyses_ok export_ok
                                            window_reporting true)
  = Returned PyNone
  /\ progress_calls (MainWindow.create_html_report analyses_ok export_ok
                                                   window_reporting true)
     = [50; 100]
  /\ printed (MainWindow.create_html_report analyses_ok export_ok
                                            window_reporting true) = [].
Proof.
  apply (create_html_report_returns_None analyses_ok export_ok window_reporting
           true (PyStr "stats") (MainWindow.parsed_chats window_reporting)
           "/home/user/index.html" PyNone);
    reflexivity.
Defined.

(** X8, witness: [window0], where [create_report] has not run. *)
Lemma create_html_report_without_report_info_witness :
  outcome_of (MainWindow.create_html_report analyses_ok export_ok window0 true)
  = Returned PyNone
  /\ progress_calls (MainWindow.create_html_report analyses_ok export_ok
                                                   window0 true) = []
  /\ printed (MainWindow.create_html_report analyses_ok export_ok window0 true)
     = ["<class 'AttributeError'> 'MainWindow' object has no attribute 'report_info'"].
Proof.
  apply (create_html_report_without_report_info analyses_ok export_ok window0
           true (PyStr "stats") (MainWindow.parsed_chats window0)
           {| exc_type := Subclass "AttributeError" Exception;
              exc_str := "'MainWindow' object has no attribute 'report_info'";
              exc_frames := [] |});
    reflexivity.
Defined.

(** ** The chat area *)

Section ChatAreaLoops.
Import MainWindow ChatArea.

Lemma range_down_S n : range_down (S n) = n :: range_down n.
Proof. unfold range_down. by rewrite seq_S, rev_app_distr. Qed.

Lemma for_each_cons {S A} (x : A) (rest : list A) (body : A -> M S unit) s :
  for_each (x :: rest) body s
  = match body x s with
    | (Returned _, s') => for_each rest body s'
    | (Raised e, s') => (Raised e, s')
    end.
Proof. done. Qed.

Lemma remove_items_loop n w :
  length (chats_layout w) = n ->
  for_each (range_down n) removeItem_itemAt w
  = (Returned tt, set_chats_layout [] w).
Proof.
  revert w. induction n as [|n IH]; intros w Hlen.
  - apply nil_length_inv in Hlen. destruct w; simpl in *. by subst.
  - rewrite range_down_S, for_each_cons. unfold removeItem_itemAt at 1.
    rewrite IH; [done|]. simpl. rewrite length_delete; [lia|].
    apply lookup_lt_is_Some. lia.
Qed.

Lemma delete_last_checkbox boxes box w :
  chat_checkboxes (main w) = boxes ++ [box] ->
  (deleteLater_at (length boxes) ;; del_chat_checkbox (length boxes))%py w
  = (Returned tt,
     {| main := set_chat_checkboxes boxes (main w);
        data_path_label := data_path_label w;
        chats_layout := chats_layout w;
        complex_choice_spin := complex_choice_spin w;
        deleted_later := deleted_later w ++ [box];
        result_connections := result_connections w |}).
Proof.
  intros Hboxes. unfold bind, deleteLater_at, del_chat_checkbox.
  rewrite Hboxes, list_lookup_middle by done. simpl.
  rewrite Hboxes, list_lookup_middle by done. unfold set_main. simpl.
  by rewrite delete_middle, app_nil_r.
Qed.

Lemma delete_checkboxes_loop boxes w :
  chat_checkboxes (main w) = boxes ->
  for_each (range_down (length boxes))
           (fun i => (deleteLater_at i ;; del_chat_checkbox i)%py) w
  = (Returned tt,
     {| main := set_chat_checkboxes [] (main w);
        data_path_label := data_path_label w;
        chats_layout := chats_layout w;
        complex_choice_spin := complex_choice_spin w;
        deleted_later := deleted_later w ++ rev boxes;
        result_connections := result_connections w |}).
Proof.
  revert w. induction boxes as [|box boxes IH] using rev_ind; intros w Hboxes.
  - simpl. rewrite app_nil_r. destruct w as [m ? ? ? ? ?]; destruct m; simpl in *.
    by subst.
  - rewrite length_app, Nat.add_1_r, range_down_S, for_each_cons.
    rewrite (delete_last_checkbox boxes box w Hboxes).
    rewrite IH; [|done]. simpl. rewrite rev_app_distr. simpl.
    by rewrite <- app_assoc.
Qed.

Lemma delete_chats_loop cs w :
  chats (main w) = cs ->
  for_each (range_down (length cs)) del_chat w
  = (Returned tt, set_main (set_chats [] (main w)) w).
Proof.
  revert w. induction cs as [|chat cs IH] using rev_ind; intros w Hcs.
  - simpl. destruct w as [m ? ? ? ? ?]; destruct m; simpl in *. by subst.
  - rewrite length_app, Nat.add_1_r, range_down_S, for_each_cons.
    unfold del_chat at 1. rewrite Hcs, list_lookup_middle by done.
    rewrite IH; [done|]. simpl. by rewrite delete_middle, app_nil_r.
Qed.

(** What [clear_chat_area] computes. *)
Lemma clear_chat_area_eq w :
  clear_chat_area w
  = (Returned tt,
     {| main := set_chat_checkboxes [] (main w);
        data_path_label := data_path_label w;
        chats_layout := [];
        complex_choice_spin := complex_choice_spin w;
        deleted_later := deleted_later w ++ rev (chat_checkboxes (main w));
        result_connections := result_connections w |}).
Proof.
  unfold clear_chat_area, bind.
  assert (Hfirst : (match length (chats_layout w) with
                    | O => ret tt w
                    | S _ => for_each (range_down (length (chats_layout w)))
                                      removeItem_itemAt w
                    end) = (Returned tt, set_chats_layout [] w)).
  { destruct (length (chats_layout w)) eqn:Hlen.
    - apply nil_length_inv in Hlen. destruct w; simpl in *. by subst.
    - rewrite <- Hlen. by apply remove_items_loop. }
  rewrite Hfirst. simpl.
  pose proof (delete_checkboxes_loop (chat_checkboxes (main w))
                (set_chats_layout [] w) eq_refl) as Hsecond.
  simpl in Hsecond.
  destruct (chat_checkboxes (main w)) as [|box boxes] eqn:Hboxes.
  - simpl. rewrite app_nil_r.
    destruct w as [m ? ? ? ? ?]; destruct m; simpl in *. by subst.
  - exact Hsecond.
Qed.

End ChatAreaLoops.

Section ChatAreaProps.
Import MainWindow ChatArea.

Lemma elem_of_List_filter {A} (f : A -> bool) (l : list A) (x : A) :
  x ∈ List.filter f l <-> x ∈ l /\ f x = true.
Proof. rewrite !list_elem_of_In. apply filter_In. Qed.

Lemma sublist_List_filter {A} (f : A -> bool) (l : list A) :
  List.filter f l `sublist_of` l.
Proof.
  induction l as [|x l IH]; simpl; [constructor|].
  destruct (f x); by constructor.
Qed.

Lemma List_filter_true {A} (l : list A) : List.filter (fun _ => true) l = l.
Proof. induction l as [|x l IH]; simpl; [done | by rewrite IH]. Qed.

(** What adding the checkboxes of the chats selected by [key] computes. *)
Lemma add_checkboxes_eq (key : Chat -> bool) (cs : list Chat) (w : Window) :
  foldl (fun w chat => if key chat then add_checkbox chat w else w) w cs
  = {| main :=
         set_chat_checkboxes
           (chat_checkboxes (main w)
              ++ ((fun chat => {| chat_id := id chat; chat_isChecked := false |})
                    <$> List.filter key cs))
           (main w);
       data_path_label := data_path_label w;
       chats_layout :=
         chats_layout w
           ++ ((fun chat => {| item_text := name chat; item_chat_id := id chat |})
                 <$> List.filter key cs);
       complex_choice_spin := complex_choice_spin w;
       deleted_later := deleted_later w;
       result_connections := result_connections w |}.
Proof.
  revert w. induction cs as [|chat cs IH]; intros w; simpl.
  - rewrite !app_nil_r. destruct w as [m ? ? ? ? ?]. by destruct m.
  - rewrite IH. destruct (key chat); [|done]. simpl.
    by rewrite <- !app_assoc.
Qed.

Lemma no_checked_no_parsed (self : MainWindow) :
  Forall (fun checkbox => chat_isChecked checkbox = false) (chat_checkboxes self) ->
  parsed_chats self = [].
Proof.
  intros Hall. apply elem_of_nil_inv. intros chat.
  rewrite elem_of_parsed_chats. intros (_ & checkbox & Hin & Hc & _).
  rewrite Forall_forall in Hall. specialize (Hall checkbox Hin). congruence.
Qed.

(** X11: [clear_chat_area] never raises; it leaves no item in the layout and
    no checkbox in [chat_checkboxes], calls [deleteLater] on every checkbox
    it removes (from the last to the first), and keeps the chats and the data
    file. *)
Theorem clear_chat_area_spec (w : Window) :
  exists w',
    clear_chat_area w = (Returned tt, w')
    /\ chats_layout w' = []
    /\ chat_checkboxes (main w') = []
    /\ deleted_later w' = deleted_later w ++ rev (chat_checkboxes (main w))
    /\ chats (main w') = chats (main w)
    /\ data_path (main w') = data_path (main w).
Proof. eexists. split; [apply clear_chat_area_eq|]. by simpl. Qed.

(** X12: [create_and_show_chats] keeps of the chats it receives those of a
    shown type that have a name, in their order; it adds one unchecked
    checkbox for each of them after the checkboxes already there, and one
    item to the layout; the layout and the checkboxes stay aligned. *)
Theorem create_and_show_chats_spec (all_chats : list Chat) (w : Window) :
  (forall chat : Chat,
     chat ∈ chats (main (create_and_show_chats all_chats w))
     <-> chat ∈ all_chats
         /\ is_shown_type (type chat) = true /\ name chat <> None)
  /\ chats (main (create_and_show_chats all_chats w)) `sublist_of` all_chats
  /\ chat_checkboxes (main (create_and_show_chats all_chats w))
     = chat_checkboxes (main w)
       ++ ((fun chat => {| chat_id := id chat; chat_isChecked := false |})
             <$> chats (main (create_and_show_chats all_chats w)))
  /\ chats_layout (create_and_show_chats all_chats w)
     = chats_layout w
       ++ ((fun chat => {| item_text := name chat; item_chat_id := id chat |})
             <$> chats (main (create_and_show_chats all_chats w)))
  /\ (aligned w -> aligned (create_and_show_chats all_chats w)).
Proof.
  unfold create_and_show_chats.
  pose proof (add_checkboxes_eq (fun _ => true)) as Hadd. simpl in Hadd.
  rewrite Hadd. simpl. rewrite List_filter_true.
  split; [|split; [apply sublist_List_filter|split; [done|split; [done|]]]].
  - intros chat. rewrite elem_of_List_filter, andb_true_iff. unfold has_name.
    destruct (name chat); intuition congruence.
  - unfold aligned. simpl. intros Hal. rewrite !fmap_app, Hal. f_equal.
    by rewrite <- !list_fmap_compose.
Qed.

(** X13: [show_chat_with_filter] never raises; whatever was shown and
    checked before, the area then shows the chats selected by [key], in the
    order of [chats], each with an unchecked checkbox, so that no chat is
    selected for the report; the chats themselves are kept. *)
Theorem show_chat_with_filter_spec (key : Chat -> bool) (w : Window) :
  exists w',
    show_chat_with_filter key w = (Returned tt, w')
    /\ chat_checkboxes (main w')
       = (fun chat => {| chat_id := id chat; chat_isChecked := false |})
           <$> List.filter key (chats (main w))
    /\ chats_layout w'
       = (fun chat => {| item_text := name chat; item_chat_id := id chat |})
           <$> List.filter key (chats (main w))
    /\ chats (main w') = chats (main w)
    /\ parsed_chats (main w') = []
    /\ aligned w'.
Proof.
  unfold show_chat_with_filter, bind. rewrite clear_chat_area_eq.
  eexists. split; [reflexivity|]. rewrite add_checkboxes_eq. simpl.
  split; [done|]. split; [done|]. split; [done|]. split.
  - apply no_checked_no_parsed. simpl. apply Forall_fmap, Forall_forall.
    by intros chat _.
  - unfold aligned. simpl. by rewrite <- !list_fmap_compose.
Qed.

End ChatAreaProps.

Section ChatSelection.
Import MainWindow ChatArea.

Lemma private_or_public (cs : list Chat) :
  Forall (fun chat => is_shown_type (type chat) = true) cs ->
  List.filter (fun chat => bool_decide (type chat = "personal_chat")) cs
  ++ List.filter (fun chat => bool_decide (type chat = "private_group")
                               || bool_decide (type chat = "private_supergroup")) cs
  ≡ₚ cs.
Proof.
  induction 1 as [|chat cs Hshown _ IH]; simpl; [done|].
  unfold is_shown_type in Hshown.
  destruct (bool_decide (type chat = "personal_chat")) eqn:Hp; simpl.
  - apply bool_decide_eq_true in Hp. rewrite Hp. simpl. by rewrite IH.
  - simpl in Hshown. rewrite Hshown. rewrite <- Permutation_middle. by rewrite IH.
Qed.

Lemma show_chat_with_filter_boxes (key : Chat -> bool) (w : Window) :
  chat_checkboxes (main (show_chat_with_filter key w).2)
  = (fun chat => {| chat_id := id chat; chat_isChecked := false |})
      <$> List.filter key (chats (main w)).
Proof.
  unfold show_chat_with_filter, bind. rewrite clear_chat_area_eq.
  cbn [snd]. by rewrite add_checkboxes_eq.
Qed.

Lemma create_and_show_chats_shown (all_chats : list Chat) (w : Window) :
  Forall (fun chat => is_shown_type (type chat) = true)
         (chats (main (create_and_show_chats all_chats w))).
Proof.
  unfold create_and_show_chats.
  pose proof (add_checkboxes_eq (fun _ => true)) as Hadd. simpl in Hadd.
  rewrite Hadd. simpl. apply Forall_forall. intros chat.
  rewrite elem_of_List_filter, andb_true_iff. tauto.
Qed.

(** X14: once the chats are loaded by [create_and_show_chats], every chat is
    shown by exactly one of "only private" and "only public": the checkboxes
    of the two filters together are those of "all chats", up to order. *)
Theorem private_public_partition (all_chats : list Chat) (w : Window) :
  (chat_id <$> chat_checkboxes
                 (main (show_only_private_chats (create_and_show_chats all_chats w)).2))
  ++ (chat_id <$> chat_checkboxes
                    (main (show_only_public_chats (create_and_show_chats all_chats w)).2))
  ≡ₚ chat_id <$> chat_checkboxes
                   (main (show_all_chats (create_and_show_chats all_chats w)).2).
Proof.
  unfold show_only_private_chats, show_only_public_chats, show_all_chats.
  rewrite !show_chat_with_filter_boxes.
  rewrite List_filter_true, <- !list_fmap_compose, <- fmap_app.
  apply fmap_Permutation, private_or_public, create_and_show_chats_shown.
Qed.

Lemma choice_all_boxes (w : Window) :
  chat_checkboxes (main (choice_all_chat w))
  = setCheckState true <$> chat_checkboxes (main w).
Proof. done. Qed.

(** X15: after [choice_all_chat] the chats selected for the report are the
    chats whose id is that of a displayed checkbox; after
    [choice_nothing_chat] no chat is selected; each of the two overrides the
    other, and both keep the displayed chats and their order. *)
Theorem choice_all_and_nothing (w : Window) :
  (forall chat : Chat,
     chat ∈ parsed_chats (main (choice_all_chat w))
     <-> chat ∈ chats (main w)
         /\ id chat ∈ chat_id <$> chat_checkboxes (main w))
  /\ parsed_chats (main (choice_nothing_chat w)) = []
  /\ choice_nothing_chat (choice_all_chat w) = choice_nothing_chat w
  /\ choice_all_chat (choice_nothing_chat w) = choice_all_chat w
  /\ chat_id <$> chat_checkboxes (main (choice_all_chat w))
     = chat_id <$> chat_checkboxes (main w)
  /\ chat_id <$> chat_checkboxes (main (choice_nothing_chat w))
     = chat_id <$> chat_checkboxes (main w).
Proof.
  split; [|split; [|split; [|split; [|split]]]].
  - intros chat. rewrite elem_of_parsed_chats. simpl.
    setoid_rewrite list_elem_of_fmap. split.
    + intros (Hchat & checkbox & (box & -> & Hin) & _ & Hid). split; [done|].
      exists box. by split.
    + intros (Hchat & box & Hid & Hin). split; [done|].
      exists (setCheckState true box). split; [by exists box|]. by split.
  - apply no_checked_no_parsed. simpl. apply Forall_fmap, Forall_forall.
    by intros box _.
  - unfold choice_nothing_chat, choice_all_chat, set_main. simpl.
    by rewrite <- list_fmap_compose.
  - unfold choice_nothing_chat, choice_all_chat, set_main. simpl.
    by rewrite <- list_fmap_compose.
  - simpl. by rewrite <- list_fmap_compose.
  - simpl. by rewrite <- list_fmap_compose.
Qed.

Lemma elem_of_chats_longer_than (n i : Z) (cs : list Chat) :
  i ∈ chats_longer_than n cs
  <-> exists chat, chat ∈ cs /\ id chat = i
                   /\ n < Z.of_nat (length (messages chat)).
Proof.
  unfold chats_longer_than.
  rewrite elem_of_list_to_set, list_elem_of_fmap.
  setoid_rewrite list_elem_of_filter. split.
  - intros (chat & -> & Hlong & Hin). by exists chat.
  - intros (chat & Hin & <- & Hlong). by exists chat.
Qed.

Lemma complex_chat_choice_boxes (w : Window) :
  chat_checkboxes (main (complex_chat_choice w))
  = (fun checkbox =>
       {| chat_id := chat_id checkbox;
          chat_isChecked :=
            bool_decide (chat_id checkbox
                           ∈ chats_longer_than (complex_choice_spin w)
                                               (chats (main w))) |})
      <$> chat_checkboxes (main w).
Proof.
  unfold complex_chat_choice. simpl. rewrite <- list_fmap_compose.
  apply list_fmap_ext. intros _ checkbox _. simpl.
  destruct (decide (chat_id checkbox
                      ∈ chats_longer_than (complex_choice_spin w) (chats (main w))))
    as [Hin|Hnot].
  - by rewrite (bool_decide_eq_true_2 _ Hin).
  - by rewrite (bool_decide_eq_false_2 _ Hnot).
Qed.

(** X16: after [complex_chat_choice] the displayed chats are the same, and a
    checkbox is checked exactly when some chat of the window with its id has
    more messages than the value of the spin box (a chat with exactly that
    many is not selected); what was checked before does not matter. *)
Theorem complex_chat_choice_spec (w : Window) :
  chat_id <$> chat_checkboxes (main (complex_chat_choice w))
  = chat_id <$> chat_checkboxes (main w)
  /\ (forall checkbox,
        checkbox ∈ chat_checkboxes (main (complex_chat_choice w)) ->
        chat_isChecked checkbox = true
        <-> exists chat, chat ∈ chats (main w)
                         /\ id chat = chat_id checkbox
                         /\ complex_choice_spin w
                            < Z.of_nat (length (messages chat)))
  /\ complex_chat_choice (choice_all_chat w) = complex_chat_choice w.
Proof.
  split; [|split].
  - rewrite complex_chat_choice_boxes. by rewrite <- list_fmap_compose.
  - intros checkbox. rewrite complex_chat_choice_boxes.
    intros (box & -> & _)%list_elem_of_fmap. simpl.
    by rewrite bool_decide_eq_true, elem_of_chats_longer_than.
  - unfold complex_chat_choice, choice_nothing_chat, choice_all_chat, set_main.
    simpl. by rewrite <- !list_fmap_compose.
Qed.

Lemma NoDup_fmap_inj_on {A B} (f : A -> B) (l : list A) (x y : A) :
  NoDup (f <$> l) -> x ∈ l -> y ∈ l -> f x = f y -> x = y.
Proof.
  induction l as [|a l IH]; csimpl; [by intros _ ?%elem_of_nil|].
  intros [Hnot Hnd]%NoDup_cons [->|Hx]%elem_of_cons [->|Hy]%elem_of_cons Heq;
    try done.
  - destruct Hnot. rewrite Heq. by apply list_elem_of_fmap_2.
  - destruct Hnot. rewrite <- Heq. by apply list_elem_of_fmap_2.
  - by apply IH.
Qed.

(** X17: after [complex_chat_choice], a chat is sent to the analysis exactly
    when its id is that of a displayed checkbox and of a chat with more
    messages than the spin box value; when the chats have distinct ids, these
    are the displayed chats with more messages than that value. *)
Theorem complex_chat_choice_report (w : Window) :
  (forall chat : Chat,
     chat ∈ parsed_chats (main (complex_chat_choice w))
     <-> chat ∈ chats (main w)
         /\ id chat ∈ chat_id <$> chat_checkboxes (main w)
         /\ exists other, other ∈ chats (main w) /\ id other = id chat
                          /\ complex_choice_spin w
                             < Z.of_nat (length (messages other)))
  /\ (NoDup (id <$> chats (main w)) ->
      forall chat : Chat,
        chat ∈ parsed_chats (main (complex_chat_choice w))
        <-> chat ∈ chats (main w)
            /\ id chat ∈ chat_id <$> chat_checkboxes (main w)
            /\ complex_choice_spin w < Z.of_nat (length (messages chat))).
Proof.
  assert (Hgen : forall chat : Chat,
     chat ∈ parsed_chats (main (complex_chat_choice w))
     <-> chat ∈ chats (main w)
         /\ id chat ∈ chat_id <$> chat_checkboxes (main w)
         /\ exists other, other ∈ chats (main w) /\ id other = id chat
                          /\ complex_choice_spin w
                             < Z.of_nat (length (messages other))).
  { intros chat. rewrite elem_of_parsed_chats, complex_chat_choice_boxes.
    change (chats (main (complex_chat_choice w))) with (chats (main w)).
    setoid_rewrite list_elem_of_fmap. split.
    - intros (Hchat & checkbox & (box & -> & Hin) & Hc & Hid). simpl in Hc, Hid.
      apply bool_decide_eq_true, elem_of_chats_longer_than in Hc.
      rewrite Hid in Hc. split; [done|]. split; [|done]. by exists box.
    - intros (Hchat & (box & Hid & Hin) & Hlong). split; [done|].
      eexists. split; [by exists box|]. simpl. split; [|done].
      apply bool_decide_eq_true, elem_of_chats_longer_than. by rewrite <- Hid. }
  split; [exact Hgen|]. intros Hnd chat. rewrite Hgen. split.
  - intros (Hchat & Hshown & other & Hother & Hid & Hlong).
    assert (other = chat) as ->
      by exact (NoDup_fmap_inj_on id _ other chat Hnd Hother Hchat Hid).
    done.
  - intros (Hchat & Hshown & Hlong). split; [done|]. split; [done|].
    by exists chat.
Qed.

End ChatSelection.

(** ** Selecting a data file *)

Section DataFile.
Import MainWindow ChatArea.

Variable gettext : string -> string -> string.
Variable Path_of : string -> Path.Path.
Variable start_creator : Callable.

(** What [select_data_file] computes for a path that is not empty. *)
Lemma select_data_file_eq (path : string) (w : Window) :
  path <> "" ->
  select_data_file gettext Path_of start_creator path w
  = (Returned tt,
     {| main :=
          start_task
            (ProgressBarDialog.__init__
               (gettext (lang (main w))
                        "Loading... Opening and processing the export file.")
               (winId (main w)))
            (Worker.__init__ (S (next_object (main w))) start_creator
                             [PyStr path] true)
            [ {| sender := S (next_object (main w)); signal := progress;
                 slot := update_progressbar (next_object (main w)) |} ]
            (set_data_path (Path_of path)
               (set_chats [] (set_chat_checkboxes [] (main w))));
        data_path_label := path;
        chats_layout := [];
        complex_choice_spin := complex_choice_spin w;
        deleted_later := deleted_later w ++ rev (chat_checkboxes (main w));
        result_connections :=
          result_connections w ++ [S (next_object (main w))] |}).
Proof.
  intros Hpath. destruct path as [|c path]; [done|].
  unfold select_data_file, bind. rewrite clear_chat_area_eq.
  match goal with
  | |- context [match chats (main ?u) with [] => ret tt ?u | _ :: _ => ?loop end] =>
      assert (Hloop : (match chats (main u) with
                       | [] => ret tt u
                       | _ :: _ => loop
                       end) = (Returned tt, set_main (set_chats [] (main u)) u))
  end.
  { pose proof (delete_chats_loop (chats (main w))
                  {| main := set_chat_checkboxes [] (main w);
                     data_path_label := data_path_label w;
                     chats_layout := [];
                     complex_choice_spin := complex_choice_spin w;
                     deleted_later :=
                       deleted_later w ++ rev (chat_checkboxes (main w));
                     result_connections := result_connections w |} eq_refl)
      as Hdel.
    simpl in *. destruct (chats (main w)) as [|chat cs] eqn:Hcs; [|exact Hdel].
    unfold ret, set_main. simpl. do 2 f_equal.
    destruct w as [m ? ? ? ? ?]; destruct m; simpl in *. by subst. }
  rewrite Hloop. reflexivity.
Qed.

(** X18: [select_data_file] with a path that is not empty never raises; it
    empties the chats, the checkboxes and the layout, stores the path as
    [data_path] and shows it in the label, and hands to the pool one worker
    that calls [start_creator] on the path with the progress handle; its
    dialog is open, and the worker's [result] signal is connected to
    [create_and_show_chats]. *)
Theorem select_data_file_spec (path : string) (w : Window) :
  path <> "" ->
  exists w',
    select_data_file gettext Path_of start_creator path w = (Returned tt, w')
    /\ chats (main w') = []
    /\ chat_checkboxes (main w') = []
    /\ chats_layout w' = []
    /\ data_path (main w') = Some (Path_of path)
    /\ data_path_label w' = path
    /\ threadpool (main w')
       = threadpool (main w)
         ++ [Worker.__init__ (S (next_object (main w))) start_creator
                             [PyStr path] true]
    /\ open_at (next_object (main w)) (main w')
    /\ result_connections w'
       = result_connections w ++ [S (next_object (main w))].
Proof.
  intros Hpath. eexists. split; [by apply select_data_file_eq|]. simpl.
  repeat (split; [done|]). split; [|done].
  eexists. split; [apply lookup_insert_eq|done].
Qed.

Lemma deliver_result_unconnected sig all_chats (l : list SignalsId) w :
  sig ∉ l ->
  foldl (fun w s => if decide (s = sig) then create_and_show_chats all_chats w else w)
        w l
  = w.
Proof.
  revert w. induction l as [|s l IH]; intros w Hnot; simpl; [done|].
  apply not_elem_of_cons in Hnot as [Hne Hnot].
  destruct (decide (s = sig)) as [->|_]; [done|]. by apply IH.
Qed.

(** X19: whatever the window showed before, once a data file is selected
    and the result of its loader has reached the window, the window holds
    the chats of that result that have a shown type and a name, and the chat
    area shows exactly these, each with an unchecked checkbox: no chat is
    selected for the report. The [WorkerSignals] object of the loader is
    fresh: no older connection of a [result] signal is to it. *)
Theorem chats_loaded (path : string) (all_chats : list Chat) (w : Window) :
  path <> "" ->
  S (next_object (main w)) ∉ result_connections w ->
  let loaded :=
    deliver_result (S (next_object (main w))) all_chats
      (select_data_file gettext Path_of start_creator path w).2 in
  chats (main loaded)
  = List.filter (fun chat => is_shown_type (type chat) && has_name chat) all_chats
  /\ chat_checkboxes (main loaded)
     = (fun chat => {| chat_id := id chat; chat_isChecked := false |})
         <$> chats (main loaded)
  /\ chats_layout loaded
     = (fun chat => {| item_text := name chat; item_chat_id := id chat |})
         <$> chats (main loaded)
  /\ parsed_chats (main loaded) = [].
Proof.
  intros Hpath Hfresh loaded. subst loaded.
  rewrite (select_data_file_eq path w Hpath). cbn [snd].
  unfold deliver_result. cbn [result_connections].
  rewrite foldl_app, (deliver_result_unconnected _ _ _ _ Hfresh). simpl.
  destruct (decide _) as [_|Hne]; [|done].
  unfold create_and_show_chats.
  pose proof (add_checkboxes_eq (fun _ => true)) as Hadd. simpl in Hadd.
  rewrite Hadd. simpl. rewrite List_filter_true.
  split; [done|]. split; [done|]. split; [done|].
  apply no_checked_no_parsed. simpl. apply Forall_fmap, Forall_forall.
  by intros chat _.
Qed.

Variable start_analyses :
  list Chat -> DateTime * DateTime -> gmap string bool
  -> Body (PyObject * list Chat) false.
Variable html_export :
  string -> Metadata -> PyObject -> string -> string
  -> forall g : bool, Body PyObject g.

Lemma fresh_start_task dialog worker conns self :
  fresh self ->
  Forall (fun c => sender c = S (next_object self)) conns ->
  fresh (start_task dialog worker conns self).
Proof.
  unfold fresh. simpl. intros Hold Hnew. apply Forall_app. split.
  - eapply Forall_impl; [exact Hold|]. simpl. lia.
  - eapply Forall_impl; [exact Hnew|]. simpl. lia.
Qed.

(** X20: in a window where no connection is to an object not yet created,
    the [WorkerSignals] object that the next task gets has no connection,
    and the window is again such a window after [create_report] and after
    [select_data_file]. *)
Theorem fresh_objects (w : Window) (path : string) :
  fresh (main w) ->
  Forall (fun c => sender c <> S (next_object (main w))) (connections (main w))
  /\ fresh (MainWindow.create_report gettext start_analyses html_export (main w))
  /\ fresh (main (select_data_file gettext Path_of start_creator path w).2).
Proof.
  intros Hfresh. split; [|split].
  - eapply Forall_impl; [exact Hfresh|]. simpl. lia.
  - unfold MainWindow.create_report.
    destruct (data_path (main w)); [|done].
    apply fresh_start_task; [exact Hfresh|]. by repeat constructor.
  - destruct (decide (path = "")) as [->|Hpath]; [done|].
    rewrite (select_data_file_eq path w Hpath). cbn [snd main].
    apply fresh_start_task; [exact Hfresh|]. by repeat constructor.
Qed.

End DataFile.

(** ** The dialog of a report task *)

Section ReportDialog.
Import MainWindow.

Lemma process_progress_dialog sig d old ps st :
  connections st
  = old ++ [ {| sender := sig; signal := progress; slot := update_progressbar d |};
             {| sender := sig; signal := finished; slot := open_report |} ] ->
  Forall (fun c => sender c <> sig) old ->
  dialogs (process_events sig (progress_emission <$> ps) st) !! d
  = (fun dialog =>
       foldl (fun dl p => ProgressBarDialog.update_progressbar p dl) dialog
         (Signal_int <$> ps))
      <$> (dialogs st !! d).
Proof.
  intros Hconn Hold. revert st Hconn.
  induction ps as [|p ps IH]; intros st Hconn.
  - simpl. by destruct (dialogs st !! d).
  - change (process_events sig (progress_emission <$> p :: ps) st)
      with (process_events sig (progress_emission <$> ps)
              (deliver sig (Progress p) st)).
    rewrite (deliver_report_task sig d old st (Progress p) Hconn Hold).
    rewrite (IH (set_dialogs _ st) Hconn). csimpl.
    rewrite lookup_alter_eq. by destruct (dialogs st !! d).
Qed.

Lemma process_events_no_progress sig ems st :
  Forall (fun em => signal_of (event em) <> progress) ems ->
  dialogs (process_events sig ems st) = dialogs st.
Proof.
  intros Hall. revert st. induction Hall as [|em ems Hem _ IH]; intros st; [done|].
  rewrite process_events_cons, IH. destruct (emit_fault em); [done|].
  by apply deliver_dialogs.
Qed.

Variable gettext : string -> string -> string.
Variable start_analyses :
  list Chat -> DateTime * DateTime -> gmap string bool
  -> Body (PyObject * list Chat) false.
Variable html_export :
  string -> Metadata -> PyObject -> string -> string
  -> forall g : bool, Body PyObject g.
Variable emit_raises : Event -> option PyExc.

(** X21: after [create_report] in a window with a data file, when the task
    reports 100 percent at some point, the dialog that [create_report]
    opened is closed and its modal loop has ended once the events of the
    task are delivered, however the task ends. The [WorkerSignals] object of
    the task is fresh. *)
Theorem create_report_dialog_closes (self : MainWindow) (path : Path.Path)
    (w : World) (worker : Worker) :
  data_path self = Some path ->
  Forall (fun c => sender c <> S (next_object self)) (connections self) ->
  last (threadpool (create_report gettext start_analyses html_export self))
  = Some worker ->
  100 ∈ progress_calls (body worker) ->
  exists dialog,
    dialogs
      (process_events (signals worker)
         (emitted (signals worker) w (run emit_raises worker w).2)
         (create_report gettext start_analyses html_export self))
      !! next_object self
    = Some dialog
    /\ ProgressBarDialog.closed dialog = true
    /\ ProgressBarDialog.modal dialog = false.
Proof.
  intros Hdata Hfresh. unfold create_report. rewrite Hdata.
  set (url := Path.str (Path.joinpath (Path.parent path) "index.html")).
  set (self1 := set_report_info (<["path" := url]> ∅) self).
  set (created := Worker.__init__ (S (next_object self1))
                    (create_html_report_method start_analyses html_export self1)
                    [] true).
  set (st := start_task _ created _ self1).
  simpl. rewrite last_snoc. intros [= <-] H100.
  assert (Hconn : connections st
    = connections self
      ++ [ {| sender := signals created; signal := progress;
              slot := update_progressbar (next_object self) |};
           {| sender := signals created; signal := finished; slot := open_report |} ])
    by done.
  assert (Hold : Forall (fun c => sender c <> signals created) (connections self))
    by exact Hfresh.
  assert (Htail : exists tail,
            emitted (signals created) w (run emit_raises created w).2
            = (progress_emission <$> progress_calls (body created)) ++ tail
            /\ Forall (fun em => signal_of (event em) <> progress) tail).
  { run_cases emit_raises created w; rewrite Hem; eexists; (split; [done|]);
      by repeat constructor. }
  destruct Htail as (tail & -> & Htail).
  rewrite process_events_app, (process_events_no_progress _ _ _ Htail).
  rewrite (process_progress_dialog _ _ _ _ st Hconn Hold).
  assert (Hdlg : dialogs st !! next_object self
                 = Some (ProgressBarDialog.exec
                           (ProgressBarDialog.__init__
                              (gettext (lang self1)
                                 "Loading... Processing data and creating a report file.")
                              (winId self1))))
    by apply lookup_insert_eq.
  rewrite Hdlg. simpl. eexists. split; [done|].
  assert (H100' : 100 ∈ Signal_int <$> progress_calls (body created))
    by (apply list_elem_of_fmap; by exists 100).
  destruct (updates_close (Signal_int <$> progress_calls (body created))
              (ProgressBarDialog.exec
                 (ProgressBarDialog.__init__
                    (gettext (lang self1)
                       "Loading... Processing data and creating a report file.")
                    (winId self1)))) as [Hc Hm].
  split; [apply Hc; by right | by apply Hm].
Qed.

End ReportDialog.

(** ** THEMES *)

Lemma before_dot_no_dot (name : string) :
  Themes.has_dot (Themes.before_dot name) = false.
Proof.
  induction name as [|c name IH]; simpl; [done|].
  destruct (Ascii.eqb c Themes.dot) eqn:Hc; simpl; [done|]. by rewrite Hc.
Qed.

(** X22: the name of a theme is what precedes the first dot of the name of
    its file: it has no dot; a name without a dot is kept whole; and of a
    name [stem.rest] whose stem has no dot, the stem is kept, so that a name
    that starts with a dot gives the empty theme name. *)
Theorem before_dot_spec :
  (forall name, Themes.has_dot (Themes.before_dot name) = false)
  /\ (forall name, Themes.has_dot name = false -> Themes.before_dot name = name)
  /\ (forall stem rest,
        Themes.has_dot stem = false ->
        Themes.before_dot (stem +:+ String Themes.dot rest) = stem)
  /\ (forall rest, Themes.before_dot (String Themes.dot rest) = "").
Proof.
  split; [exact before_dot_no_dot|]. split; [|split].
  - induction name as [|c name IH]; simpl; [done|].
    destruct (Ascii.eqb c Themes.dot); simpl; [done|]. intros H. by rewrite IH.
  - induction stem as [|c stem IH]; intros rest; simpl.
    + by rewrite ?Ascii.eqb_refl.
    + destruct (Ascii.eqb c Themes.dot); simpl; [done|]. intros H. by rewrite IH.
  - intros rest. simpl. by rewrite ?Ascii.eqb_refl.
Qed.

(** ** The construction of the window *)

Section NewWindow.
Import MainWindow ChatArea.

Variable gettext : string -> string -> string.
Variable start_analyses :
  list Chat -> DateTime * DateTime -> gmap string bool
  -> Body (PyObject * list Chat) false.
Variable html_export :
  string -> Metadata -> PyObject -> string -> string
  -> forall g : bool, Body PyObject g.

(** X23: the window is built exactly when [lang] is a key of [LOCALES] and
    the year of the day is above 5; otherwise [KeyError], or else
    [AssertionError], is raised. In a window just built every feature is
    switched on, no chat is selected, the period analysed ends on the day,
    and [create_report] does nothing. *)
Theorem new_window (winId : nat) (themes : list string) (lang : string)
    (today : Date) :
  match __init__ winId themes lang today with
  | Returned w =>
      lang ∈ LOCALES /\ 5 < year today
      /\ (forall k, k ∈ feature_names -> features (main w) !! k = Some true)
      /\ parsed_chats (main w) = []
      /\ to_date (main w) = today
      /\ create_report gettext start_analyses html_export w = w
  | Raised e =>
      ((lang ∉ LOCALES) /\ exc_type e = KeyError)
      \/ (lang ∈ LOCALES /\ year today <= 5
          /\ exc_type e = Subclass "AssertionError" Exception)
  end.
Proof.
  unfold __init__.
  destruct (bool_decide (lang ∈ LOCALES)) eqn:Hlang.
  - apply bool_decide_eq_true in Hlang.
    destruct (0 <? year today - 5) eqn:Hyear.
    + apply Z.ltb_lt in Hyear. split; [done|]. split; [lia|].
      split; [|split; [done|split; [by destruct today|done]]].
      intros k Hk. unfold feature_names in Hk.
      repeat (apply elem_of_cons in Hk as [->|Hk]; [reflexivity|]).
      by apply elem_of_nil in Hk.
    + apply Z.ltb_ge in Hyear. right. split; [done|]. split; [lia|done].
  - apply bool_decide_eq_false in Hlang. by left.
Qed.

End NewWindow.

(** X18, witness: another data file is selected in [chat_window0]. *)
Lemma select_data_file_spec_witness :
  exists w',
    ChatArea.select_data_file gettext_null Path_of_sample creator_ok
      "/home/user/other.json" chat_window0
    = (Returned tt, w')
    /\ MainWindow.chats (ChatArea.main w') = []
    /\ MainWindow.chat_checkboxes (ChatArea.main w') = []
    /\ ChatArea.chats_layout w' = []
    /\ MainWindow.data_path (ChatArea.main w')
       = Some (Path_of_sample "/home/user/other.json")
    /\ ChatArea.data_path_label w' = "/home/user/other.json"
    /\ MainWindow.threadpool (ChatArea.main w')
       = MainWindow.threadpool (ChatArea.main chat_window0)
         ++ [Worker.__init__
               (S (MainWindow.next_object (ChatArea.main chat_window0)))
               creator_ok [PyStr "/home/user/other.json"] true]
    /\ MainWindow.open_at (MainWindow.next_object (ChatArea.main chat_window0))
                          (ChatArea.main w')
    /\ ChatArea.result_connections w'
       = ChatArea.result_connections chat_window0
         ++ [S (MainWindow.next_object (ChatArea.main chat_window0))].
Proof.
  apply (select_data_file_spec gettext_null Path_of_sample creator_ok
           "/home/user/other.json" chat_window0).
  discriminate.
Defined.

(** X19, witness: the loader of the new file returns [loaded_chats]. *)
Lemma chats_loaded_witness :
  let loaded :=
    ChatArea.deliver_result
      (S (MainWindow.next_object (ChatArea.main chat_window0))) loaded_chats
      (ChatArea.select_data_file gettext_null Path_of_sample creator_ok
         "/home/user/other.json" chat_window0).2 in
  MainWindow.chats (ChatArea.main loaded)
  = List.filter
      (fun chat => ChatArea.is_shown_type (MainWindow.type chat)
                   && ChatArea.has_name chat)
      loaded_chats
  /\ MainWindow.chat_checkboxes (ChatArea.main loaded)
     = (fun chat => {| MainWindow.chat_id := MainWindow.id chat;
                       MainWindow.chat_isChecked := false |})
         <$> MainWindow.chats (ChatArea.main loaded)
  /\ ChatArea.chats_layout loaded
     = (fun chat => {| ChatArea.item_text := MainWindow.name chat;
                       ChatArea.item_chat_id := MainWindow.id chat |})
         <$> MainWindow.chats (ChatArea.main loaded)
  /\ MainWindow.parsed_chats (ChatArea.main loaded) = [].
Proof.
  apply (chats_loaded gettext_null Path_of_sample creator_ok
           "/home/user/other.json" loaded_chats chat_window0).
  - discriminate.
  - apply not_elem_of_nil.
Defined.

(** The chats kept of [loaded_chats]: the channel and the group without a
    name are dropped. *)
Example loaded_chats_kept :
  MainWindow.id
    <$> MainWindow.chats
          (ChatArea.main (ChatArea.create_and_show_chats loaded_chats chat_window0))
  = [1; 4]
  /\ MainWindow.chat_id
       <$> MainWindow.chat_checkboxes
             (ChatArea.main (ChatArea.create_and_show_chats loaded_chats chat_window0))
     = [10; 1; 4].
Proof. split; vm_compute; reflexivity. Qed.

(** [complex_chat_choice] with 1 in the spin box: of the chats with two
    messages and with one message, only the first is selected. *)
Example complex_chat_choice_strict :
  let w :=
    ChatArea.create_and_show_chats
      [ {| MainWindow.id := 1; MainWindow.name := Some "Bob";
           MainWindow.type := "personal_chat"; MainWindow.messages := ["a"; "b"] |};
        {| MainWindow.id := 5; MainWindow.name := Some "Carol";
           MainWindow.type := "personal_chat"; MainWindow.messages := ["c"] |} ]
      {| ChatArea.main := window_no_data;
         ChatArea.data_path_label := "";
         ChatArea.chats_layout := [];
         ChatArea.complex_choice_spin := 1;
         ChatArea.deleted_later := [];
         ChatArea.result_connections := [] |} in
  MainWindow.id <$> MainWindow.parsed_chats
                      (ChatArea.main (ChatArea.complex_chat_choice w))
  = [1].
Proof. vm_compute. reflexivity. Qed.

(** X20, witness: [chat_window0] has no connection. *)
Lemma fresh_objects_witness :
  Forall (fun c => MainWindow.sender c
                   <> S (MainWindow.next_object (ChatArea.main chat_window0)))
         (MainWindow.connections (ChatArea.main chat_window0))
  /\ ChatArea.fresh
       (MainWindow.create_report gettext_null analyses_ok export_ok
                                 (ChatArea.main chat_window0))
  /\ ChatArea.fresh
       (ChatArea.main
          (ChatArea.select_data_file gettext_null Path_of_sample creator_ok
             "/home/user/other.json" chat_window0).2).
Proof.
  apply (fresh_objects gettext_null Path_of_sample creator_ok analyses_ok
           export_ok chat_window0 "/home/user/other.json").
  constructor.
Defined.

(** X21, witness: the report task of [window0], whose renderer reports 50
    and 100. *)
Lemma create_report_dialog_closes_witness :
  exists dialog,
    MainWindow.dialogs
      (MainWindow.process_events 3%nat
         (emitted 3%nat world0
            (run emit_ok
               (Worker.__init__ 3%nat
                  (MainWindow.create_html_report_method analyses_ok export_ok
                     window_reporting)
                  [] true)
               world0).2)
         (MainWindow.create_report gettext_null analyses_ok export_ok window0))
      !! MainWindow.next_object window0
    = Some dialog
    /\ ProgressBarDialog.closed dialog = true
    /\ ProgressBarDialog.modal dialog = false.
Proof.
  apply (create_report_dialog_closes gettext_null analyses_ok export_ok emit_ok
           window0
           {| Path.anchor := "/"; Path.parts := ["home"; "user"; "result.json"] |}
           world0
           (Worker.__init__ 3%nat
              (MainWindow.create_html_report_method analyses_ok export_ok
                 window_reporting)
              [] true)).
  - reflexivity.
  - constructor.
  - reflexivity.
  - apply (bool_decide_unpack _). vm_compute. exact I.
Defined.

(** The window is built for the two locales and not for another. *)
Example new_window_languages :
  (exists w, ChatArea.__init__ 1 ["light"; "dark"] "ru_RU.UTF-8"
               {| MainWindow.year := 2024; MainWindow.month := 2; MainWindow.day := 29 |}
             = Returned w
             /\ MainWindow.theme_combobox (ChatArea.main w) = "light"
             /\ ChatArea.complex_choice_spin w = 100)
  /\ (exists e, ChatArea.__init__ 1 ["light"; "dark"] "de_DE.UTF-8"
                 {| MainWindow.year := 2024; MainWindow.month := 2; MainWindow.day := 29 |}
               = Raised e
               /\ exc_type e = KeyError).
Proof. split; eexists; (split; [vm_compute; reflexivity|]); by vm_compute. Qed.

(** On 29 February the day five years earlier does not exist, and the
    editor of the first date shows 1 January 2000; on another day it shows
    the day five years earlier. *)
Example from_date_on_leap_day :
  (exists w, ChatArea.__init__ 1 ["light"] "en_US.UTF-8"
               {| MainWindow.year := 2024; MainWindow.month := 2; MainWindow.day := 29 |}
             = Returned w
             /\ MainWindow.from_date (ChatArea.main w)
                = {| MainWindow.year := 2000; MainWindow.month := 1;
                     MainWindow.day := 1 |})
  /\ (exists w, ChatArea.__init__ 1 ["light"] "en_US.UTF-8"
                 {| MainWindow.year := 2024; MainWindow.month := 3; MainWindow.day := 15 |}
               = Returned w
               /\ MainWindow.from_date (ChatArea.main w)
                  = {| MainWindow.year := 2019; MainWindow.month := 3;
                       MainWindow.day := 15 |}).
Proof. split; eexists; (split; [vm_compute; reflexivity|]); by vm_compute. Qed.

(** The text of the [KeyError] for a locale that is not there is the
    [repr] of its name. *)
Example new_window_unknown_locale :
  ChatArea.__init__ 1 ["light"] "de_DE.UTF-8"
    {| MainWindow.year := 2024; MainWindow.month := 3; MainWindow.day := 15 |}
  = Raised {| exc_type := KeyError; exc_str := "'de_DE.UTF-8'"; exc_frames := [] |}.
Proof. by vm_compute. Qed.

(** The last line of the traceback of a fault without a message is the
    name of its class alone. *)
Example format_exc_without_message :
  format_exc {| exc_type := KeyboardInterrupt; exc_str := ""; exc_frames := [] |}
  = "Traceback (most recent call last):" +:+ newline
    +:+ "KeyboardInterrupt" +:+ newline.
Proof. by vm_compute. Qed.
